(** * CRUD-RBAC: the model store and the dynamic CRUD route

    A shallow embedding of
    - [src/lib/model-persistence.ts] (class [ModelPersistence]),
    - the dynamic CRUD route, handlers [GET], [POST], [PUT], [DELETE] and
      the helper [getMockData],
    - the model-creation route [src/app/api/models/route.ts] and the
      state updates of the model form,
    - the update and delete handlers of the route of one model,
    followed by the properties of the specification that concern them
    and by further properties of the code.

    Conventions.  A JavaScript object used as a record of properties is a
    [gmap string _]; reading a property is lookup of own properties, and
    the names under which an object without such a property finds a
    member inherited from [Object.prototype] are listed in
    [Object_prototype]: a statement about a read under a name the code
    does not fix leaves those names out.  The file system grants what
    the process asks of it: [mkdir] and [writeFile] into a directory
    that exists do not reject, so a statement that an operation returns
    is about such a file system, or has the directory exist beforehand.
    Asynchronous methods are computations in a state-and-exception monad
    over the file system; [try { .. } catch { .. }] is [try_catch].  What
    Node supplies ([path.join], the clock, [Math.random], [parseFloat],
    [Date.prototype.toISOString]) enters as the variables of a section. *)

From stdpp Require Import base strings gmap list option pretty.
From Stdlib Require Import ZArith QArith Qround.

Local Open Scope Z_scope.
Local Open Scope string_scope.

(** ** JSON values *)

Module JS.

(** A number is kept as the decimal [m * 10^e] of its literal. *)
#[warnings="-register-all"] Inductive JSON : Type :=
  | JNull
  | JBool (b : bool)
  | JNum (m e : Z)
  | JStr (s : string)
  | JArr (items : list JSON)
  | JObj (props : gmap string JSON).

(** The outcome of evaluating an expression or awaiting a promise. *)
Inductive Res (A : Type) : Type :=
  | Val (a : A)
  | Exn.
Arguments Val {A} a.
Arguments Exn {A}.

(** [!!v] of JavaScript; [None] is [undefined]. *)
Definition truthy (v : option JSON) : bool :=
  match v with
  | None => false
  | Some JNull => false
  | Some (JBool b) => b
  | Some (JNum m _) => negb (Z.eqb m 0)
  | Some (JStr s) => negb (bool_decide (s = ""))
  | Some (JArr _) => true
  | Some (JObj _) => true
  end.

(** The array index a property key denotes, if it is below [n]: the key
    is the canonical decimal of the index. *)
Definition index_of_key (n : nat) (k : string) : option nat :=
  fst <$> list_find (λ i : nat, pretty i = k) (seq 0 n).

Definition string_at (s : string) (i : nat) : option JSON :=
  (λ c, JStr (String c EmptyString)) <$> String.get i s.

(** [v[k]], on own properties: reading a property of [null] throws a
    TypeError. *)
Definition get_prop (v : JSON) (k : string) : Res (option JSON) :=
  match v with
  | JNull => Exn
  | JBool _ => Val None
  | JNum _ _ => Val None
  | JStr s =>
      if bool_decide (k = "length") then Val (Some (JNum (Z.of_nat (String.length s)) 0))
      else Val (index_of_key (String.length s) k ≫= string_at s)
  | JArr l =>
      if bool_decide (k = "length") then Val (Some (JNum (Z.of_nat (length l)) 0))
      else Val (index_of_key (length l) k ≫= (l !!.))
  | JObj m => Val (m !! k)
  end.

(** The members of [Object.prototype]: under these names [v[k]] finds a
    function (the prototype itself under "__proto__") on every object
    that has no own property of the name, where [get_prop] has none. *)
Definition Object_prototype : list string :=
  [ "constructor"; "hasOwnProperty"; "isPrototypeOf"; "propertyIsEnumerable";
    "toLocaleString"; "toString"; "valueOf"; "__proto__";
    "__defineGetter__"; "__defineSetter__"; "__lookupGetter__"; "__lookupSetter__" ].

(** [o[k] = v] on an object made by the literal [{}]: the own property
    [k] is set, unless [k] is "__proto__", which reaches the setter
    inherited from [Object.prototype] and adds no property (a string, a
    number or a boolean, as [getMockData] assigns, is ignored by it). *)
Definition set_prop (k : string) (v : JSON) (o : gmap string JSON) : gmap string JSON :=
  if bool_decide (k = "__proto__") then o else <[k := v]> o.

Definition indexed {A} (l : list A) : gmap string A :=
  list_to_map (imap (λ i x, (pretty i, x)) l).

Fixpoint chars (s : string) : list JSON :=
  match s with
  | EmptyString => []
  | String c s' => JStr (String c EmptyString) :: chars s'
  end.

(** The own enumerable properties copied by the spread [{...v}]. *)
Definition spread (v : JSON) : gmap string JSON :=
  match v with
  | JObj m => m
  | JArr l => indexed l
  | JStr s => indexed (chars s)
  | JNull | JBool _ | JNum _ _ => ∅
  end.

(** [v === s] for a string [s]. *)
Definition strict_eq_string (v : option JSON) (s : string) : bool :=
  match v with
  | Some (JStr s') => bool_decide (s' = s)
  | _ => false
  end.

(** [xs.includes(x)] on an array of strings. *)
Definition includes (x : string) (xs : list string) : bool :=
  bool_decide (x ∈ xs).

End JS.
Export JS.

(** ** Model definitions ([interface ModelDefinition]) *)

Inductive FieldType : Type := TString | TNumber | TBoolean | TDate | TText.

Record Field : Type := mkField {
  f_name : string;
  f_type : FieldType;
  f_required : option bool;
  f_default : option string;
  f_unique : option bool;
  f_relation : option string
}.

(** [createdAt] and [updatedAt] are not part of the interface; [saveModel]
    adds them to what it writes, so a loaded definition carries them.  They
    are kept as the millisecond count of the [Date] they were taken from. *)
Record ModelDefinition : Type := mkModel {
  name : string;
  tableName : option string;
  fields : list Field;
  ownerField : option string;
  rbac : gmap string (list string);
  createdAt : option Z;
  updatedAt : option Z
}.

(** [Partial<ModelDefinition>]: the properties an update carries. *)
Record ModelUpdates : Type := mkUpdates {
  u_name : option string;
  u_tableName : option string;
  u_fields : option (list Field);
  u_ownerField : option string;
  u_rbac : option (gmap string (list string))
}.

(** ** The file system and the monad of asynchronous code *)

(** The text of a file, up to what [JSON.parse] makes of it: the
    serialisation of a definition, or a text [JSON.parse] rejects. *)
Inductive FileContent : Type :=
  | Document (d : ModelDefinition)
  | Malformed (raw : string).

Record World : Type := mkWorld {
  dir_exists : bool;                  (* the models directory exists *)
  files : gmap string FileContent;    (* path -> content *)
  clock_reads : nat;                  (* clock readings taken so far *)
  random_draws : nat                  (* Math.random() calls so far *)
}.

(** An asynchronous computation over a state [S]: it returns or throws,
    and leaves a state either way. *)
Definition Async (S A : Type) : Type := S → Res A * S.

Definition ret {S A} (a : A) : Async S A := λ w, (Val a, w).
Definition bind {S A B} (m : Async S A) (k : A → Async S B) : Async S B :=
  λ w, match m w with
       | (Val a, w') => k a w'
       | (Exn, w') => (Exn, w')
       end.
Definition try_catch {S A} (m : Async S A) (handler : Async S A) : Async S A :=
  λ w, match m w with
       | (Val a, w') => (Val a, w')
       | (Exn, w') => handler w'
       end.
Definition lift {S A} (r : Res A) : Async S A := λ w, (r, w).

Abbreviation M := (Async World).

Notation "'let!' x ':=' m 'in' k" := (bind m (λ x, k))
  (at level 10, x pattern, m at level 100, k at level 200).
Notation "m ';;;' k" := (bind m (λ _, k))
  (at level 100, k at level 200, right associativity).

Definition JSON_stringify (d : ModelDefinition) : FileContent := Document d.

Definition JSON_parse (c : FileContent) : Res ModelDefinition :=
  match c with
  | Document d => Val d
  | Malformed _ => Exn
  end.

Definition fs_access_dir : M unit :=
  λ w, if dir_exists w then (Val (), w) else (Exn, w).

(** [fs.mkdir(dir, { recursive: true })] where the process may create
    the directory; a file system that refuses is not described. *)
Definition fs_mkdir : M unit :=
  λ w, (Val (), mkWorld true (files w) (clock_reads w) (random_draws w)).

Definition fs_readFile (path : string) : M FileContent :=
  λ w, match files w !! path with
       | Some c => (Val c, w)
       | None => (Exn, w)
       end.

Definition fs_writeFile (path : string) (c : FileContent) : M unit :=
  λ w, if dir_exists w
       then (Val (), mkWorld true (<[path := c]> (files w)) (clock_reads w) (random_draws w))
       else (Exn, w).

Record Response : Type := mkResponse {
  status : nat;
  payload : JSON
}.

(** [NextResponse.json({ error: msg }, { status })] *)
Definition error_response (msg : string) (status : nat) : Response :=
  mkResponse status (JObj {["error" := JStr msg]}).

(** The four actions of an [rbac] entry, by the name the handlers test. *)
Inductive Action : Type := Create | Read | Update | Delete.

Definition action_name (a : Action) : string :=
  match a with
  | Create => "create"
  | Read => "read"
  | Update => "update"
  | Delete => "delete"
  end.

Section Platform.

Variable path_join : string → string → string.
(** [clock k] is the reading of the system clock at the [k]-th time the
    process asks for it. *)
Variable clock : nat → Z.
(** [Math_random k] is the [k]-th value [Math.random()] returns. *)
Variable Math_random : nat → Q.
Variable toISOString : Z → string.
(** [parseFloat s] as it is serialised in a response ([NaN] becomes
    [null]). *)
Variable parseFloat : string → JSON.

(** [new Date()] / [Date.now()] *)
Definition new_Date : M Z :=
  λ w, (Val (clock (clock_reads w)),
        mkWorld (dir_exists w) (files w) (S (clock_reads w)) (random_draws w)).

Definition random : M Q :=
  λ w, (Val (Math_random (random_draws w)),
        mkWorld (dir_exists w) (files w) (clock_reads w) (S (random_draws w))).

(** ** [class ModelPersistence] *)

Section ModelPersistence.

Variable modelsDir : string.

Definition ensureModelsDirectory : M unit :=
  try_catch fs_access_dir fs_mkdir.

Definition with_metadata (model : ModelDefinition) (c u : Z) : ModelDefinition :=
  mkModel (name model) (tableName model) (fields model) (ownerField model)
          (rbac model) (Some c) (Some u).

Definition getModelFilePath (modelName : string) : string :=
  path_join modelsDir (modelName +:+ ".json").

Definition saveModel (model : ModelDefinition) : M unit :=
  ensureModelsDirectory ;;;
  let fileName := name model +:+ ".json" in
  let filePath := path_join modelsDir fileName in
  let! c := new_Date in
  let! u := new_Date in
  let modelWithMetadata := with_metadata model c u in
  fs_writeFile filePath (JSON_stringify modelWithMetadata).

Definition loadModel (modelName : string) : M (option ModelDefinition) :=
  try_catch
    (let fileName := modelName +:+ ".json" in
     let filePath := path_join modelsDir fileName in
     let! content := fs_readFile filePath in
     let! d := lift (JSON_parse content) in
     ret (Some d))
    (ret None).

(** [{...existingModel, ...updates, updatedAt}] *)
Definition merge_updates (existing : ModelDefinition) (updates : ModelUpdates)
    (u : Z) : ModelDefinition :=
  mkModel (default (name existing) (u_name updates))
          (match u_tableName updates with Some t => Some t | None => tableName existing end)
          (default (fields existing) (u_fields updates))
          (match u_ownerField updates with Some o => Some o | None => ownerField existing end)
          (default (rbac existing) (u_rbac updates))
          (createdAt existing)
          (Some u).

Definition updateModel (modelName : string) (updates : ModelUpdates) : M bool :=
  try_catch
    (let! existingModel := loadModel modelName in
     match existingModel with
     | None => ret false
     | Some existingModel =>
         let! u := new_Date in
         let updatedModel := merge_updates existingModel updates u in
         saveModel updatedModel ;;;
         ret true
     end)
    (ret false).

End ModelPersistence.

(** ** The dynamic CRUD route *)

(** [export const modelPersistence = new ModelPersistence()] *)
Definition modelPersistence_loadModel : string → M (option ModelDefinition) :=
  loadModel "./models".

Record Request : Type := mkRequest {
  rq_modelName : string;     (* params.modelName *)
  rq_id : option string;     (* searchParams.get('id') *)
  rq_body : Res JSON         (* await request.json(); rejects on a body that is not JSON *)
}.

(** [!!s] for a string or [null]/[undefined]. *)
Definition truthy_string (s : option string) : option string :=
  match s with
  | Some s => if bool_decide (s = "") then None else Some s
  | None => None
  end.

Definition truthy_flag (b : option bool) : bool := default false b.

(** [modelDef.rbac[userRole] || []] *)
Definition permissions_of (modelDef : ModelDefinition) (userRole : string) : list string :=
  default [] (rbac modelDef !! userRole).

(** One iteration of the loop of [getMockData]: the value stored under
    the field's name. *)
Definition mock_value (field : Field) : M JSON :=
  match f_type field with
  | TString =>
      ret (JStr (default ("Sample " +:+ f_name field) (truthy_string (f_default field))))
  | TNumber =>
      match truthy_string (f_default field) with
      | Some d => ret (parseFloat d)
      | None => let! r := random in ret (JNum (Qfloor (r * 100)) 0)
      end
  | TBoolean =>
      match truthy_string (f_default field) with
      | Some d => ret (JBool (bool_decide (d = "true")))
      | None => let! r := random in ret (JBool (negb (Qle_bool r (1 # 2))))
      end
  | TDate =>
      match truthy_string (f_default field) with
      | Some d => ret (JStr d)
      | None => let! t := new_Date in ret (JStr (toISOString t))
      end
  | TText =>
      ret (JStr (default ("Sample text for " +:+ f_name field) (truthy_string (f_default field))))
  end.

Fixpoint getMockData_from (fs : list Field) (data : gmap string JSON)
    : M (gmap string JSON) :=
  match fs with
  | [] => ret data
  | field :: rest =>
      let! v := mock_value field in
      getMockData_from rest (set_prop (f_name field) v data)
  end.

Definition getMockData (modelDef : ModelDefinition) : M (gmap string JSON) :=
  getMockData_from (fields modelDef) ∅.

(** [Array.from({ length: n }, (_, i) => ({ id: `mock-${i + 1}`, ...getMockData(modelDef) }))],
    the records from index [i] on. *)
Fixpoint mockRecords (modelDef : ModelDefinition) (i n : nat) : M (list JSON) :=
  match n with
  | O => ret []
  | S n' =>
      let! data := getMockData modelDef in
      let! rest := mockRecords modelDef (S i) n' in
      ret (JObj (data ∪ {["id" := JStr ("mock-" +:+ pretty (S i))]}) :: rest)
  end.

(** The loop [for (const field of modelDef.fields)] of [POST]: the
    response of the first iteration that returns, if any. *)
Fixpoint validate_required (fs : list Field) (body : JSON) : Res (option Response) :=
  match fs with
  | [] => Val None
  | field :: rest =>
      if truthy_flag (f_required field) then
        match get_prop body (f_name field) with
        | Exn => Exn
        | Val v =>
            if negb (truthy v)
            then Val (Some (error_response ("Field '" +:+ f_name field +:+ "' is required") 400))
            else validate_required rest body
        end
      else validate_required rest body
  end.

Section Principal.

(** [const userRole = 'Admin'] and [const currentUserId = 'user-1'] in
    the handlers ("in real app, get from auth context"). *)
Variable userRole : string.
Variable currentUserId : string.

Definition GET_as (req : Request) : M Response :=
  try_catch
    (let modelName := rq_modelName req in
     let id := rq_id req in
     let! modelDef := modelPersistence_loadModel modelName in
     match modelDef with
     | None => ret (error_response "Model not found" 404)
     | Some modelDef =>
         let permissions := permissions_of modelDef userRole in
         if negb (includes "read" permissions)
         then ret (error_response "Insufficient permissions" 403)
         else
           match truthy_string id with
           | Some id =>
               let! data := getMockData modelDef in
               ret (mkResponse 200 (JObj (data ∪ {["id" := JStr id]})))
           | None =>
               let! records := mockRecords modelDef 0 5 in
               ret (mkResponse 200 (JArr records))
           end
     end)
    (ret (error_response "Failed to fetch data" 500)).

Definition POST_as (req : Request) : M Response :=
  try_catch
    (let modelName := rq_modelName req in
     let! body := lift (rq_body req) in
     let! modelDef := modelPersistence_loadModel modelName in
     match modelDef with
     | None => ret (error_response "Model not found" 404)
     | Some modelDef =>
         let permissions := permissions_of modelDef userRole in
         if negb (includes "create" permissions)
         then ret (error_response "Insufficient permissions" 403)
         else
           let! failure := lift (validate_required (fields modelDef) body) in
           match failure with
           | Some response => ret response
           | None =>
               let! now := new_Date in
               let! c := new_Date in
               let! u := new_Date in
               let newRecord :=
                 <["updatedAt" := JStr (toISOString u)]>
                   (<["createdAt" := JStr (toISOString c)]>
                      (spread body ∪ {["id" := JStr ("mock-" +:+ pretty now)]})) in
               ret (mkResponse 201 (JObj newRecord))
           end
     end)
    (ret (error_response "Failed to create record" 500)).

Definition PUT_as (req : Request) : M Response :=
  try_catch
    (let modelName := rq_modelName req in
     let id := rq_id req in
     let! body := lift (rq_body req) in
     match truthy_string id with
     | None => ret (error_response "Record ID is required" 400)
     | Some id =>
         let! modelDef := modelPersistence_loadModel modelName in
         match modelDef with
         | None => ret (error_response "Model not found" 404)
         | Some modelDef =>
             let permissions := permissions_of modelDef userRole in
             if negb (includes "update" permissions)
             then ret (error_response "Insufficient permissions" 403)
             else
               let! denied :=
                 match truthy_string (ownerField modelDef) with
                 | Some owner =>
                     let! v := lift (get_prop body owner) in
                     ret (negb (strict_eq_string v currentUserId)
                          && negb (bool_decide (userRole = "Admin")))
                 | None => ret false
                 end in
               if (denied : bool)
               then ret (error_response "You can only update your own records" 403)
               else
                 let! u := new_Date in
                 let updatedRecord :=
                   <["updatedAt" := JStr (toISOString u)]>
                     (spread body ∪ {["id" := JStr id]}) in
                 ret (mkResponse 200 (JObj updatedRecord))
         end
     end)
    (ret (error_response "Failed to update record" 500)).

Definition DELETE_as (req : Request) : M Response :=
  try_catch
    (let modelName := rq_modelName req in
     let id := rq_id req in
     match truthy_string id with
     | None => ret (error_response "Record ID is required" 400)
     | Some id =>
         let! modelDef := modelPersistence_loadModel modelName in
         match modelDef with
         | None => ret (error_response "Model not found" 404)
         | Some modelDef =>
             let permissions := permissions_of modelDef userRole in
             if negb (includes "delete" permissions)
             then ret (error_response "Insufficient permissions" 403)
             else
               let denied :=
                 match truthy_string (ownerField modelDef) with
                 | Some _ => negb (bool_decide (userRole = "Admin"))
                 | None => false
                 end in
               if denied
               then ret (error_response "You can only delete your own records" 403)
               else ret (mkResponse 200
                           (JObj {["message" := JStr "Record deleted successfully"]}))
         end
     end)
    (ret (error_response "Failed to delete record" 500)).

(** The handler the route exports for the HTTP method of an action. *)
Definition handler_as (a : Action) : Request → M Response :=
  match a with
  | Create => POST_as
  | Read => GET_as
  | Update => PUT_as
  | Delete => DELETE_as
  end.

End Principal.

(** The handlers as the route exports them. *)
Definition GET : Request → M Response := GET_as "Admin".
Definition POST : Request → M Response := POST_as "Admin".
Definition PUT : Request → M Response := PUT_as "Admin" "user-1".
Definition DELETE : Request → M Response := DELETE_as "Admin".

End Platform.

(** ** The model-creation route, [POST /api/models] *)

Section ModelsRoute.

(** The Prisma client of [@/lib/db] is not part of this code: its table
    is a state [Db], and [db_create] is [db.modelDefinition.create], which
    returns the created row or rejects. *)
Variable Db : Type.

Record CreateData : Type := mkCreateData {
  cd_name : option JSON;
  cd_tableName : option JSON;
  cd_definition : JSON        (* what [JSON.stringify({ fields, ownerField, rbac })] denotes *)
}.

Variable db_create : CreateData → Async Db JSON.

Definition isArray (v : option JSON) : bool :=
  match v with
  | Some (JArr _) => true
  | _ => false
  end.

(** [fields.length === 0], evaluated on an array *)
Definition length_is_zero (v : option JSON) : bool :=
  match v with
  | Some (JArr []) => true
  | _ => false
  end.

Definition set_if_defined (k : string) (v : option JSON) (o : gmap string JSON)
    : gmap string JSON :=
  match v with
  | Some v => <[k := v]> o
  | None => o
  end.

Definition POST_models (request_json : Res JSON) : Async Db Response :=
  try_catch
    (let! body := lift request_json in
     let! name := lift (get_prop body "name") in
     let! tableName := lift (get_prop body "tableName") in
     let! fields := lift (get_prop body "fields") in
     let! ownerField := lift (get_prop body "ownerField") in
     let! rbac := lift (get_prop body "rbac") in
     if negb (truthy name) || negb (truthy fields) || negb (isArray fields)
        || length_is_zero fields
     then ret (error_response "Invalid model definition" 400)
     else
       let definition :=
         JObj (set_if_defined "rbac" rbac
                 (set_if_defined "ownerField" ownerField
                    (set_if_defined "fields" fields ∅))) in
       let! modelDefinition := db_create (mkCreateData name tableName definition) in
       ret (mkResponse 201 modelDefinition))
    (ret (error_response "Failed to create model" 500)).

End ModelsRoute.

(** ** A reference platform

    Concrete values for what Node supplies, used by the examples: a clock
    that advances by a millisecond per reading and one that is read
    several times within one millisecond, [toISOString] for the years 0000
    to 9999, and [path.join] on a directory and a plain file name. *)

Module Node.

Definition path_join (dir file : string) : string :=
  if bool_decide (String.substring 0 2 dir = "./")
  then String.substring 2 (String.length dir - 2) dir +:+ "/" +:+ file
  else dir +:+ "/" +:+ file.

(** 2024-01-01T00:00:00.000Z *)
Definition t0 : Z := 1704067200000.

Definition clock (k : nat) : Z := t0 + Z.of_nat k.
Definition clock_same_ms (k : nat) : Z := t0.

Definition Math_random (k : nat) : Q := 1 # 4.

(** The name of a file in a directory, from its path. *)
Definition entry_name (dir path : string) : option string :=
  let prefix := path_join dir "" in
  if String.prefix prefix path
  then Some (String.substring (String.length prefix)
                              (String.length path - String.length prefix) path)
  else None.

(** [fs.readdir(dir)] on a directory that holds files only: the names of
    the files under it, and a rejection when it does not exist. *)
Definition readdir (dir : string) (w : World) : Res (list string) :=
  if dir_exists w
  then Val (omap (entry_name dir) (map_to_list (files w)).*1)
  else Exn.

Definition pad (width : nat) (z : Z) : string :=
  let digits := pretty z in
  String.concat "" (replicate (width - String.length digits) "0") +:+ digits.

(** Year, month and day of a count of days since 1970-01-01. *)
Definition civil_from_days (days : Z) : Z * Z * Z :=
  let z := days + 719468 in
  let era := z / 146097 in
  let doe := z - era * 146097 in
  let yoe := (doe - doe / 1460 + doe / 36524 - doe / 146096) / 365 in
  let doy := doe - (365 * yoe + yoe / 4 - yoe / 100) in
  let mp := (5 * doy + 2) / 153 in
  let d := doy - (153 * mp + 2) / 5 + 1 in
  let m := if (mp <? 10)%Z then mp + 3 else mp - 9 in
  let y := yoe + era * 400 + (if (m <=? 2)%Z then 1 else 0) in
  (y, m, d).

Definition toISOString (t : Z) : string :=
  let '(y, m, d) := civil_from_days (t / 86400000) in
  let ms := t mod 86400000 in
  pad 4 y +:+ "-" +:+ pad 2 m +:+ "-" +:+ pad 2 d +:+ "T"
    +:+ pad 2 (ms / 3600000) +:+ ":" +:+ pad 2 (ms / 60000 mod 60) +:+ ":"
    +:+ pad 2 (ms / 1000 mod 60) +:+ "." +:+ pad 3 (ms mod 1000) +:+ "Z".

End Node.

(** ** [class ModelPersistence], the other methods *)

(** [fs.unlink(path)]: rejects when there is no such file. *)
Definition fs_unlink (path : string) : M unit :=
  λ w, match files w !! path with
       | Some _ => (Val (), mkWorld (dir_exists w) (delete path (files w))
                                    (clock_reads w) (random_draws w))
       | None => (Exn, w)
       end.

(** [fs.access(path)] on the path of a file. *)
Definition fs_access (path : string) : M unit :=
  λ w, match files w !! path with
       | Some _ => (Val (), w)
       | None => (Exn, w)
       end.

(** [s.endsWith(suffix)] *)
Definition endsWith (s suffix : string) : bool :=
  bool_decide (String.length suffix ≤ String.length s)%nat
  && bool_decide (String.substring (String.length s - String.length suffix)
                                   (String.length suffix) s = suffix).

Section ModelPersistenceRest.

Variable path_join : string → string → string.
(** [readdir dir w] is what [fs.readdir(dir)] gives in the world [w]: the
    names of the entries of the directory, or a rejection. *)
Variable readdir : string → World → Res (list string).
Variable modelsDir : string.

Definition fs_readdir (dir : string) : M (list string) :=
  λ w, (readdir dir w, w).

(** The loop [for (const file of modelFiles)] of [loadAllModels], with
    the array [models] it pushes to. *)
Fixpoint loadAllModels_loop (modelFiles : list string) (models : list ModelDefinition)
    : M (list ModelDefinition) :=
  match modelFiles with
  | [] => ret models
  | file :: rest =>
      let! models :=
        try_catch
          (let filePath := path_join modelsDir file in
           let! content := fs_readFile filePath in
           let! model := lift (JSON_parse content) in
           ret (models ++ [model])%list)
          (ret models) in
      loadAllModels_loop rest models
  end.

Definition loadAllModels : M (list ModelDefinition) :=
  ensureModelsDirectory ;;;
  try_catch
    (let! files := fs_readdir modelsDir in
     let modelFiles := filter (λ file, endsWith file ".json" = true) files in
     loadAllModels_loop modelFiles [])
    (ret []).

Definition deleteModel (modelName : string) : M bool :=
  try_catch
    (let fileName := modelName +:+ ".json" in
     let filePath := path_join modelsDir fileName in
     fs_unlink filePath ;;;
     ret true)
    (ret false).

Definition modelExists (modelName : string) : M bool :=
  try_catch
    (let fileName := modelName +:+ ".json" in
     let filePath := path_join modelsDir fileName in
     fs_access filePath ;;;
     ret true)
    (ret false).

End ModelPersistenceRest.

(** *** [generatePrismaSchema] *)

Definition nl : string := String (Ascii.ascii_of_nat 10) EmptyString.
Definition dquote : string := String (Ascii.ascii_of_nat 34) EmptyString.

(** The [switch (field.type)] of [generatePrismaSchema]. *)
Definition prisma_type (t : FieldType) : string :=
  match t with
  | TString => "String"
  | TNumber => "Float"
  | TBoolean => "Boolean"
  | TDate => "DateTime"
  | TText => "String"
  end.

(** The line the callback of [fields.forEach] builds for a field. *)
Definition fieldLine (field : Field) : string :=
  let fieldLine := "  " +:+ f_name field +:+ "  " in
  let fieldLine := fieldLine +:+ prisma_type (f_type field) in
  let fieldLine :=
    if truthy_flag (f_required field) then fieldLine +:+ " @db.NotNull" else fieldLine in
  let fieldLine :=
    if truthy_flag (f_unique field) then fieldLine +:+ " @unique" else fieldLine in
  match truthy_string (f_default field) with
  | Some d =>
      match f_type field with
      | TBoolean => fieldLine +:+ " @default(" +:+ d +:+ ")"
      | TNumber => fieldLine +:+ " @default(" +:+ d +:+ ")"
      | _ => fieldLine +:+ " @default(" +:+ dquote +:+ d +:+ dquote +:+ ")"
      end
  | None => fieldLine
  end.

Definition generatePrismaSchema (model : ModelDefinition) : string :=
  let schema := "model " +:+ name model +:+ " {" +:+ nl in
  let schema := schema +:+ "  id        String   @id @default(cuid())" +:+ nl in
  let schema :=
    match truthy_string (ownerField model) with
    | Some ownerField => schema +:+ "  " +:+ ownerField +:+ " String" +:+ nl
    | None => schema
    end in
  let schema :=
    fold_left (λ schema field, schema +:+ fieldLine field +:+ nl) (fields model) schema in
  let schema := schema +:+ "  createdAt DateTime @default(now())" +:+ nl in
  let schema := schema +:+ "  updatedAt DateTime @updatedAt" +:+ nl in
  schema +:+ "}" +:+ nl.

(** ** The model form ([ModelDefinitionForm]): its state updates *)

Module Form.

(** [{ name: '', type: 'string', required: false, unique: false }] *)
Definition newField : Field := mkField "" TString (Some false) None (Some false) None.

(** [setFields([...fields, newField])] *)
Definition addField (fields : list Field) : list Field :=
  (fields ++ [newField])%list.

(** [xs.filter((_, i) => i !== index)], counting from [i]. *)
Fixpoint filter_index_from {A} (i index : nat) (xs : list A) : list A :=
  match xs with
  | [] => []
  | x :: rest =>
      if bool_decide (i ≠ index)
      then x :: filter_index_from (S i) index rest
      else filter_index_from (S i) index rest
  end.

(** The state after [removeField(index)]. *)
Definition removeField (index : nat) (fields : list Field) : list Field :=
  if bool_decide (1 < length fields)%nat
  then filter_index_from 0 index fields
  else fields.

(** The updater [togglePermission(role, permission)] hands to [setRbac]. *)
Definition togglePermission (role permission : string)
    (prev : gmap string (list string)) : gmap string (list string) :=
  let currentPermissions := default [] (prev !! role) in
  let updatedPermissions :=
    if includes permission currentPermissions
    then filter (λ p, p ≠ permission) currentPermissions
    else (currentPermissions ++ [permission])%list in
  <[role := updatedPermissions]> prev.

End Form.

(** ** The route of one model, [/api/models/[id]] *)

Section ModelByIdRoute.

Variable Db : Type.

(** A row of the table: [definition] is kept as what [JSON.parse] makes
    of the column. *)
Record ModelRow : Type := mkModelRow {
  row_name : string;
  row_tableName : option string;
  row_definition : Res JSON
}.

Record UpdateData : Type := mkUpdateData {
  ud_name : JSON;
  ud_tableName : JSON;
  ud_definition : JSON      (* what the [JSON.stringify({ .. })] denotes *)
}.

(** [db.modelDefinition.findUnique], [.update] and [.delete] *)
Variable db_findUnique : string → Async Db (option ModelRow).
Variable db_update : string → UpdateData → Async Db JSON.
Variable db_delete : string → Async Db unit.

(** A nullable string column as a JSON value. *)
Definition nullable (s : option string) : JSON :=
  match s with
  | Some s => JStr s
  | None => JNull
  end.

(** [v || JSON.parse(existingModel.definition)[k]]: the stored
    definition is parsed only when [v] is falsy. *)
Definition or_stored (v : option JSON) (existingModel : ModelRow) (k : string)
    : Res (option JSON) :=
  if truthy v then Val v
  else match row_definition existingModel with
       | Val stored => get_prop stored k
       | Exn => Exn
       end.

Definition PUT_model (id : string) (request_json : Res JSON) : Async Db Response :=
  try_catch
    (let! body := lift request_json in
     let! name := lift (get_prop body "name") in
     let! tableName := lift (get_prop body "tableName") in
     let! fields := lift (get_prop body "fields") in
     let! ownerField := lift (get_prop body "ownerField") in
     let! rbac := lift (get_prop body "rbac") in
     let! existingModel := db_findUnique id in
     match existingModel with
     | None => ret (error_response "Model not found" 404)
     | Some existingModel =>
         let name' :=
           if truthy name then default JNull name else JStr (row_name existingModel) in
         let tableName' :=
           if truthy tableName then default JNull tableName
           else nullable (row_tableName existingModel) in
         let! fields' := lift (or_stored fields existingModel "fields") in
         let! ownerField' := lift (or_stored ownerField existingModel "ownerField") in
         let! rbac' := lift (or_stored rbac existingModel "rbac") in
         let definition :=
           JObj (set_if_defined "rbac" rbac'
                   (set_if_defined "ownerField" ownerField'
                      (set_if_defined "fields" fields' ∅))) in
         let! updatedModel := db_update id (mkUpdateData name' tableName' definition) in
         ret (mkResponse 200 updatedModel)
     end)
    (ret (error_response "Failed to update model" 500)).

Definition DELETE_model (id : string) : Async Db Response :=
  try_catch
    (let! existingModel := db_findUnique id in
     match existingModel with
     | None => ret (error_response "Model not found" 404)
     | Some _ =>
         db_delete id ;;;
         ret (mkResponse 200 (JObj {["message" := JStr "Model deleted successfully"]}))
     end)
    (ret (error_response "Failed to delete model" 500)).

End ModelByIdRoute.

(** * Notions used by the statements *)

(** ** Outcomes of the operations *)

(** The world after one more reading of the clock. *)
Definition tick (w : World) : World :=
  mkWorld (dir_exists w) (files w) (S (clock_reads w)) (random_draws w).

Section Outcomes.

Variable path_join : string → string → string.
Variable clock : nat → Z.
Variable toISOString : Z → string.
Variable modelsDir : string.

(** The world [saveModel] leaves. *)
Definition saved_world (d : ModelDefinition) (w : World) : World :=
  mkWorld true
    (<[getModelFilePath path_join modelsDir (name d) :=
         Document (with_metadata d (clock (clock_reads w)) (clock (S (clock_reads w))))]>
       (files w))
    (S (S (clock_reads w))) (random_draws w).

(** The records [POST] and [PUT] answer with. *)
Definition newRecord (w : World) (body : JSON) : JSON :=
  JObj (<["updatedAt" := JStr (toISOString (clock (S (S (clock_reads w)))))]>
          (<["createdAt" := JStr (toISOString (clock (S (clock_reads w))))]>
             (spread body ∪ {["id" := JStr ("mock-" +:+ pretty (clock (clock_reads w)))]}))).

Definition updatedRecord (w : World) (id : string) (body : JSON) : JSON :=
  JObj (<["updatedAt" := JStr (toISOString (clock (clock_reads w)))]>
          (spread body ∪ {["id" := JStr id]})).

End Outcomes.

Definition required_message (field : Field) : Response :=
  error_response ("Field '" +:+ f_name field +:+ "' is required") 400.

(** A field the loop of [POST] steps over. *)
Definition passes (body : JSON) (field : Field) : Prop :=
  truthy_flag (f_required field) = false
  ∨ ∃ v, get_prop body (f_name field) = Val v ∧ truthy v = true.

(** A field at which the loop of [POST] returns. *)
Definition fails (body : JSON) (field : Field) : Prop :=
  truthy_flag (f_required field) = true
  ∧ ∃ v, get_prop body (f_name field) = Val v ∧ truthy v = false.

(** What a request must carry for its handler to get as far as the
    permission check: a body that is JSON where the handler reads one, a
    record id where the handler asks for one. *)
Definition well_formed (a : Action) (req : Request) : Prop :=
  match a with
  | Read => True
  | Create => ∃ body, rq_body req = Val body
  | Update => (∃ body, rq_body req = Val body) ∧ is_Some (truthy_string (rq_id req))
  | Delete => is_Some (truthy_string (rq_id req))
  end.

(** Every failure of the required rule, in field order: the fields that
    are required and whose value in the payload is not truthy. *)
Definition required_violations (fs : list Field) (body : gmap string JSON) : list string :=
  f_name <$> filter (λ field, truthy_flag (f_required field) = true
                              ∧ truthy (body !! f_name field) = false) fs.

(** The submission the creation route reads from a body. *)
Definition submitted (body : JSON) (v_name v_tableName v_fields v_ownerField v_rbac : option JSON)
    : Prop :=
  get_prop body "name" = Val v_name ∧ get_prop body "tableName" = Val v_tableName
  ∧ get_prop body "fields" = Val v_fields ∧ get_prop body "ownerField" = Val v_ownerField
  ∧ get_prop body "rbac" = Val v_rbac.

Definition definition_json (v_fields v_ownerField v_rbac : option JSON) : JSON :=
  JObj (set_if_defined "rbac" v_rbac
          (set_if_defined "ownerField" v_ownerField (set_if_defined "fields" v_fields ∅))).

(** ** The claims as the specification words them

    The statements below follow the specification, not the code; they are
    what the code is compared with. *)

(** "equal to [d] except for [updatedAt]" *)
Definition equal_except_updatedAt (d d' : ModelDefinition) : Prop :=
  name d' = name d ∧ tableName d' = tableName d ∧ fields d' = fields d
  ∧ ownerField d' = ownerField d ∧ rbac d' = rbac d ∧ createdAt d' = createdAt d.

(** "[updatedAt] strictly increases" from [d] to [d'] *)
Definition updatedAt_increased (d d' : ModelDefinition) : Prop :=
  match updatedAt d, updatedAt d' with
  | Some t, Some t' => t < t'
  | None, Some _ => True
  | _, None => False
  end.

(** "[SaveDefinition(d)] followed by [GetDefinition(d.name)] yields a
    definition equal to [d] except for [updatedAt], which must strictly
    increase" *)
Definition round_trip_as_specified (path_join : string → string → string)
    (clock : nat → Z) (modelsDir : string) (d : ModelDefinition) (w : World) : Prop :=
  ∃ d', fst (loadModel path_join modelsDir (name d)
               (snd (saveModel path_join clock modelsDir d w))) = Val (Some d')
        ∧ equal_except_updatedAt d d' ∧ updatedAt_increased d d'.

(** "a store read that fails to parse is a CorruptDefinition error, not
    NotFound": the two loads have different results. *)
Definition corrupt_told_from_missing (path_join : string → string → string)
    (modelsDir : string) (w : World) (corrupt missing : string) : Prop :=
  fst (loadModel path_join modelsDir corrupt w)
  ≠ fst (loadModel path_join modelsDir missing w).

(** The invariants of a definition: "unique field names, rbac action
    subset, non-empty fields". *)
Definition canonical_actions : list string := ["create"; "read"; "update"; "delete"].

Definition invariants_hold (d : ModelDefinition) : Prop :=
  NoDup (f_name <$> fields d)
  ∧ (∀ role actions, rbac d !! role = Some actions → actions ⊆ canonical_actions)
  ∧ fields d ≠ [].

(** The response lets the request through. *)
Definition allowed (r : Res Response * World) : Prop :=
  ∃ response w', r = (Val response, w') ∧ status response = 200%nat.

(** "[ValidatePayload({name:"Laptop", price:"999.99"}, Create)] yields
    [{name:"Laptop", price:999.99, isActive:true}]": the created record has
    a number for [price] and [true] for [isActive]. *)
Definition normalized_as_specified (r : Res Response * World) : Prop :=
  ∃ record w', r = (Val (mkResponse 201 (JObj record)), w')
    ∧ record !! "name" = Some (JStr "Laptop")
    ∧ (∃ m e, record !! "price" = Some (JNum m e))
    ∧ record !! "isActive" = Some (JBool true).

(** "a caller sees every violation in one response": what is answered
    tells which fields are in violation. *)
Definition violations_visible (fs : list Field)
    (respond : gmap string JSON → Res Response * World) : Prop :=
  ∀ m1 m2, respond m1 = respond m2 → required_violations fs m1 = required_violations fs m2.

(** "a definition violating any of them is rejected as an
    invalid-definition error without being persisted" *)
Definition save_as_specified (path_join : string → string → string) (clock : nat → Z)
    (modelsDir : string) (d : ModelDefinition) (w : World) : Prop :=
  ¬ invariants_hold d →
  fst (saveModel path_join clock modelsDir d w) = Exn
  ∧ files (snd (saveModel path_join clock modelsDir d w)) = files w.

(** ** Outcomes and shapes used by the further properties *)

Section StoreOutcomes.

Variable path_join : string → string → string.
Variable clock : nat → Z.
Variable modelsDir : string.

(** The world [updateModel] leaves when the name holds the definition
    [d]: three readings of the clock, the merged definition written under
    its own name with the second and third of them. *)
Definition updated_world (d : ModelDefinition) (updates : ModelUpdates) (w : World) : World :=
  let merged := merge_updates d updates (clock (clock_reads w)) in
  mkWorld true
    (<[getModelFilePath path_join modelsDir (name merged) :=
         Document (with_metadata merged (clock (S (clock_reads w)))
                                 (clock (S (S (clock_reads w)))))]> (files w))
    (S (S (S (clock_reads w)))) (random_draws w).

(** What [loadAllModels] makes of a directory entry. *)
Definition entry_model (w : World) (file : string) : option ModelDefinition :=
  match files w !! path_join modelsDir file with
  | Some (Document d) => Some d
  | _ => None
  end.

End StoreOutcomes.

(** The lines of the fields, one after the other. *)
Definition fieldLines (fs : list Field) : string :=
  foldr (λ field rest, fieldLine field +:+ nl +:+ rest) "" fs.

(** The definition with every [text] field made a [string] field. *)
Definition string_for_text (f : Field) : Field :=
  mkField (f_name f) (match f_type f with TText => TString | t => t end)
          (f_required f) (f_default f) (f_unique f) (f_relation f).

Definition text_as_string (model : ModelDefinition) : ModelDefinition :=
  mkModel (name model) (tableName model) (string_for_text <$> fields model)
          (ownerField model) (rbac model) (createdAt model) (updatedAt model).

(** A computation that leaves the files and the directory as they are. *)
Definition keeps_store {A} (m : M A) : Prop :=
  ∀ w, files (snd (m w)) = files w ∧ dir_exists (snd (m w)) = dir_exists w.

(** A value that [!v] takes for missing. *)
Definition falsy_value (v : JSON) : Prop :=
  v = JNull ∨ v = JBool false ∨ v = JStr "" ∨ ∃ e, v = JNum 0 e.

(** The names under which an assignment [data[name] = ..] makes a
    property of an object made by [{}]. *)
Definition own_names (names : list string) : list string :=
  filter (λ k, k ≠ "__proto__") names.

Section MockShapes.

Variable toISOString : Z → string.
Variable parseFloat : string → JSON.

(** What [getMockData] stores for a field, by the type of the field and
    its default. *)
Definition mock_shape (field : Field) (v : JSON) : Prop :=
  match f_type field, truthy_string (f_default field) with
  | TString, Some d => v = JStr d
  | TString, None => v = JStr ("Sample " +:+ f_name field)
  | TNumber, Some d => v = parseFloat d
  | TNumber, None => ∃ z, v = JNum z 0 ∧ (0 ≤ z ≤ 99)%Z
  | TBoolean, Some d => v = JBool (bool_decide (d = "true"))
  | TBoolean, None => ∃ b, v = JBool b
  | TDate, Some d => v = JStr d
  | TDate, None => ∃ t, v = JStr (toISOString t)
  | TText, Some d => v = JStr d
  | TText, None => v = JStr ("Sample text for " +:+ f_name field)
  end.

End MockShapes.

Section ModelUpdateOutcomes.

Variable Db : Type.
Variable db_update : string → UpdateData → Async Db JSON.

(** The answer of [PUT /api/models/[id]] once it hands [data] to
    [db.modelDefinition.update]: the updated row, or 500 when the
    database rejects. *)
Definition answers_update (id : string) (data : UpdateData) : Async Db Response :=
  try_catch
    (let! updatedModel := db_update id data in
     ret (mkResponse 200 updatedModel))
    (ret (error_response "Failed to update model" 500)).

(** [v || stored], on properties. *)
Definition or_else (v stored : option JSON) : option JSON :=
  if truthy v then v else stored.

End ModelUpdateOutcomes.

(** ** The Product scenario *)

Module Scenario.

Definition all_actions : list string := ["create"; "read"; "update"; "delete"].

Definition product_fields : list Field :=
  [ mkField "name" TString (Some true) None None None;
    mkField "price" TNumber (Some true) None None None;
    mkField "isActive" TBoolean None (Some "true") None None ].

Definition product_rbac : gmap string (list string) :=
  <["Admin" := all_actions]> (<["Viewer" := ["read"]]> ∅).

(** The definition as published the day before [Node.t0]. *)
Definition Product : ModelDefinition :=
  mkModel "Product" None product_fields None product_rbac
          (Some (Node.t0 - 86400000)) (Some (Node.t0 - 86400000)).

(** [{ name: "Laptop", price: "999.99" }] *)
Definition laptop_payload : JSON :=
  JObj (<["name" := JStr "Laptop"]> (<["price" := JStr "999.99"]> ∅)).

(** A model with an owner, on which Manager may also delete. *)
Definition Ticket : ModelDefinition :=
  mkModel "Ticket" None
          [ mkField "title" TString (Some true) None None None;
            mkField "ownerId" TString None None None None ]
          (Some "ownerId")
          (<["Admin" := all_actions]> (<["Manager" := all_actions]> (<["Viewer" := ["read"]]> ∅)))
          (Some (Node.t0 - 86400000)) (Some (Node.t0 - 86400000)).

Definition w_empty : World := mkWorld false ∅ 0 0.

Definition w_models : World :=
  mkWorld true
    (<["models/Product.json" := Document Product]>
       (<["models/Ticket.json" := Document Ticket]>
          (<["models/Broken.json" := Malformed "{ name: "]> ∅)))
    0 0.

Definition no_updates : ModelUpdates := mkUpdates None None None None None.

(** A definition with a field name used twice and an action that is none
    of the four, and one with no field at all. *)
Definition Flawed : ModelDefinition :=
  mkModel "Flawed" None
          [ mkField "code" TString None None None None;
            mkField "code" TNumber None None None None ]
          None (<["Admin" := ["read"; "approve"]]> ∅) None None.

Definition Hollow : ModelDefinition :=
  mkModel "Hollow" None [] None (<["Admin" := all_actions]> ∅) None None.

(** [Product] as a load returns it right after a save at [Node.t0]. *)
Definition Product_just_saved : ModelDefinition :=
  mkModel "Product" None product_fields None product_rbac (Some Node.t0) (Some Node.t0).

(** A table kept as the list of what was created. *)
Definition list_create (data : CreateData) : Async (list CreateData) JSON :=
  λ db, (Val (JObj (set_if_defined "name" (cd_name data)
                      {["definition" := cd_definition data]})), data :: db).

(** [{ name: "Flawed", fields: [] }] *)
Definition hollow_submission : JSON :=
  JObj (<["name" := JStr "Flawed"]> (<["fields" := JArr []]> ∅)).

End Scenario.

(** ** A table of model rows

    A stand-in for the Prisma client in the examples of the model route:
    the table is a map from ids to rows; [update] and [delete] reject on
    an id that is not there. *)

Module Table.

Definition Db : Type := gmap string ModelRow.

Definition db_findUnique (id : string) : Async Db (option ModelRow) :=
  λ db, (Val (db !! id), db).

Definition db_update (id : string) (data : UpdateData) : Async Db JSON :=
  λ db, match db !! id with
        | Some row =>
            let row' :=
              mkModelRow (match ud_name data with JStr s => s | _ => row_name row end)
                         (match ud_tableName data with JStr s => Some s | _ => None end)
                         (Val (ud_definition data)) in
            (Val (JObj (<["id" := JStr id]>
                          (<["name" := ud_name data]>
                             {["definition" := ud_definition data]}))),
             <[id := row']> db)
        | None => (Exn, db)
        end.

Definition db_delete (id : string) : Async Db unit :=
  λ db, match db !! id with
        | Some _ => (Val (), delete id db)
        | None => (Exn, db)
        end.

(** Rows are created under their name. *)
Definition db_create (data : CreateData) : Async Db JSON :=
  λ db, match cd_name data with
        | Some (JStr n) =>
            (Val (JObj (<["id" := JStr n]> {["definition" := cd_definition data]})),
             <[n := mkModelRow n None (Val (cd_definition data))]> db)
        | _ => (Exn, db)
        end.

(** The stored definition of the row "m1": one field, an owner field and
    a property that is none of the three of a definition. *)
Definition note_definition : gmap string JSON :=
  <["fields" := JArr [JObj {["name" := JStr "title"]}]]>
    (<["ownerField" := JStr "ownerId"]> {["version" := JNum 2 0]}).

Definition note_row : ModelRow := mkModelRow "Note" (Some "notes") (Val (JObj note_definition)).

(** The row "m2" holds a definition that does not parse. *)
Definition torn_row : ModelRow := mkModelRow "Torn" None Exn.

Definition rows : Db := <["m1" := note_row]> {["m2" := torn_row]}.

(** [{ fields: [], ownerField: "" }] *)
Definition emptying_body : gmap string JSON :=
  <["fields" := JArr []]> {["ownerField" := JStr ""]}.

(** A body with the three properties of a definition. *)
Definition whole_body : gmap string JSON :=
  <["fields" := JArr [JObj {["name" := JStr "title"]}]]>
    (<["ownerField" := JStr "ownerId"]>
       {["rbac" := JObj {["Admin" := JArr [JStr "read"]]}]}).

End Table.

(** * Properties *)

Example toISOString_t0 : Node.toISOString Node.t0 = "2024-01-01T00:00:00.000Z".
Proof. vm_compute. reflexivity. Qed.

Example toISOString_epoch : Node.toISOString 0 = "1970-01-01T00:00:00.000Z".
Proof. vm_compute. reflexivity. Qed.

Example toISOString_leap : Node.toISOString 951868799999 = "2000-02-29T23:59:59.999Z".
Proof. vm_compute. reflexivity. Qed.

Example path_join_models : Node.path_join "./models" "Product.json" = "models/Product.json".
Proof. reflexivity. Qed.

(** The handlers the route exports are those of the principal the source
    writes in: role "Admin", id "user-1". *)
Example exported_handlers (path_join : string → string → string) (clock : nat → Z)
    (Math_random : nat → Q) (toISOString : Z → string) (parseFloat : string → JSON)
    (a : Action) :
  handler_as path_join clock Math_random toISOString parseFloat "Admin" "user-1" a
  = match a with
    | Create => POST path_join clock toISOString
    | Read => GET path_join clock Math_random toISOString parseFloat
    | Update => PUT path_join clock toISOString
    | Delete => DELETE path_join
    end.
Proof. by destruct a. Qed.

(** ** The model store *)

Section PersistenceFacts.

Variable path_join : string → string → string.
Variable clock : nat → Z.
Variable modelsDir : string.

Local Abbreviation path := (getModelFilePath path_join modelsDir).
Local Abbreviation load := (loadModel path_join modelsDir).
Local Abbreviation save := (saveModel path_join clock modelsDir).
Local Abbreviation update := (updateModel path_join clock modelsDir).
Local Abbreviation saved := (saved_world path_join clock modelsDir).

Lemma loadModel_document (w : World) (n : string) (d : ModelDefinition) :
  files w !! path n = Some (Document d) → load n w = (Val (Some d), w).
Proof.
  unfold getModelFilePath, loadModel, try_catch, bind, fs_readFile, lift, ret.
  by intros ->.
Qed.

Lemma loadModel_absent (w : World) (n : string) :
  files w !! path n = None → load n w = (Val None, w).
Proof.
  unfold getModelFilePath, loadModel, try_catch, bind, fs_readFile, lift, ret.
  by intros ->.
Qed.

Lemma loadModel_malformed (w : World) (n raw : string) :
  files w !! path n = Some (Malformed raw) → load n w = (Val None, w).
Proof.
  unfold getModelFilePath, loadModel, try_catch, bind, fs_readFile, lift, ret.
  by intros ->.
Qed.

(** Loading never changes the world and never throws. *)
Lemma loadModel_total (w : World) (n : string) :
  ∃ r, load n w = (Val r, w).
Proof.
  destruct (files w !! path n) as [[d|raw]|] eqn:E.
  - eexists. by apply loadModel_document.
  - eexists. by eapply loadModel_malformed.
  - eexists. by apply loadModel_absent.
Qed.

Lemma saveModel_run (d : ModelDefinition) (w : World) :
  save d w = (Val (), saved d w).
Proof.
  unfold saveModel, saved_world, getModelFilePath, ensureModelsDirectory, try_catch,
    bind, fs_access_dir, fs_mkdir, new_Date, fs_writeFile, JSON_stringify.
  by destruct w as [[] fs k r].
Qed.


(** C8 (as amended).  Loading a name whose document exists but does not
    parse returns [null], the very result of loading a name that has no
    document; the world is left as it was. *)
Theorem loadModel_corrupt_is_null (w : World) (n raw : string) :
  files w !! path n = Some (Malformed raw) →
  load n w = (Val None, w)
  ∧ ∀ n', files w !! path n' = None → load n' w = load n w.
Proof.
  intros H. rewrite (loadModel_malformed _ _ _ H). split; [done|].
  intros n' H'. by apply loadModel_absent.
Qed.

(** C10.  For a name with no stored document, [updateModel] returns
    [false] (it does not throw) and the world, files and directory
    included, is exactly what it was. *)
Theorem updateModel_missing (w : World) (n : string) (updates : ModelUpdates) :
  files w !! path n = None →
  update n updates w = (Val false, w).
Proof.
  intros H. unfold updateModel, try_catch, bind.
  by rewrite (loadModel_absent _ _ H).
Qed.

(** On a stored definition the update goes through [saveModel]. *)
Lemma updateModel_document (w : World) (n : string) (updates : ModelUpdates)
    (d : ModelDefinition) :
  files w !! path n = Some (Document d) →
  ∃ w', update n updates w = (Val true, w').
Proof.
  intros H. unfold updateModel, try_catch, bind.
  rewrite (loadModel_document _ _ _ H). unfold new_Date.
  rewrite saveModel_run. by eexists.
Qed.

End PersistenceFacts.

(** ** The dynamic CRUD route *)

Lemma includes_true (x : string) (xs : list string) : x ∈ xs → includes x xs = true.
Proof. intros. unfold includes. by apply bool_decide_eq_true_2. Qed.

Lemma includes_false (x : string) (xs : list string) : x ∉ xs → includes x xs = false.
Proof. intros. unfold includes. by apply bool_decide_eq_false_2. Qed.

Lemma permissions_of_unlisted (d : ModelDefinition) (role : string) :
  rbac d !! role = None → permissions_of d role = [].
Proof. unfold permissions_of. by intros ->. Qed.

Lemma strict_eq_string_spec (v : option JSON) (s : string) :
  strict_eq_string v s = true ↔ v = Some (JStr s).
Proof.
  unfold strict_eq_string. destruct v as [[]|]; try (split; [done|congruence]).
  rewrite bool_decide_eq_true. split; [by intros ->|congruence].
Qed.

Section RouteFacts.

Variable path_join : string → string → string.
Variable clock : nat → Z.
Variable Math_random : nat → Q.
Variable toISOString : Z → string.
Variable parseFloat : string → JSON.

Local Abbreviation stored w n := (files w !! getModelFilePath path_join "./models" n).
Local Abbreviation get := (GET_as path_join clock Math_random toISOString parseFloat).
Local Abbreviation post := (POST_as path_join clock toISOString).
Local Abbreviation put := (PUT_as path_join clock toISOString).
Local Abbreviation del := (DELETE_as path_join).
Local Abbreviation handler :=
  (handler_as path_join clock Math_random toISOString parseFloat).
Local Abbreviation created := (newRecord clock toISOString).
Local Abbreviation updated := (updatedRecord clock toISOString).

Lemma load_stored (w : World) (n : string) (d : ModelDefinition) :
  stored w n = Some (Document d) →
  modelPersistence_loadModel path_join n w = (Val (Some d), w).
Proof. apply loadModel_document. Qed.


(** *** Running the handlers past the permission check *)

Lemma validate_required_first (body : JSON) (pre post : list Field) (field : Field) :
  Forall (passes body) pre → fails body field →
  validate_required (pre ++ field :: post) body = Val (Some (required_message field)).
Proof.
  intros Hpre [Hreq (v & Hv & Hfalsy)].
  induction Hpre as [|g pre [Hg|(u & Hu & Htruthy)] _ IH]; simpl.
  - by rewrite Hreq, Hv, Hfalsy.
  - by rewrite Hg.
  - rewrite Hu, Htruthy. simpl. by destruct (truthy_flag (f_required g)).
Qed.

Lemma validate_required_all_pass (body : JSON) (fs : list Field) :
  Forall (passes body) fs → validate_required fs body = Val None.
Proof.
  induction 1 as [|g fs [Hg|(u & Hu & Htruthy)] _ IH]; simpl; [done| |].
  - by rewrite Hg.
  - rewrite Hu, Htruthy. simpl. by destruct (truthy_flag (f_required g)).
Qed.

(** On an object payload the loop never throws; it returns at the first
    field that fails, so it returns whenever some field fails. *)
Lemma validate_required_object (m : gmap string JSON) (fs : list Field) (field : Field) :
  field ∈ fs → f_required field = Some true → truthy (m !! f_name field) = false →
  ∃ g, g ∈ fs ∧ f_required g = Some true
       ∧ validate_required fs (JObj m) = Val (Some (required_message g)).
Proof.
  intros Hin Hreq Hfalsy.
  induction fs as [|g fs IH]; [by apply elem_of_nil in Hin|].
  simpl. destruct (f_required g) as [[]|] eqn:Hg; simpl.
  - destruct (truthy (m !! f_name g)) eqn:Htruthy; simpl.
    + apply elem_of_cons in Hin as [->|Hin]; [congruence|].
      destruct (IH Hin) as (g' & Hg' & Hreq' & ->). exists g'. split; [by right|done].
    + exists g. split; [by left|done].
  - apply elem_of_cons in Hin as [->|Hin]; [congruence|].
    destruct (IH Hin) as (g' & Hg' & Hreq' & ->). exists g'. split; [by right|done].
  - apply elem_of_cons in Hin as [->|Hin]; [congruence|].
    destruct (IH Hin) as (g' & Hg' & Hreq' & ->). exists g'. split; [by right|done].
Qed.

Lemma post_run (userRole : string) (req : Request) (w : World) (d : ModelDefinition)
    (body : JSON) :
  stored w (rq_modelName req) = Some (Document d) →
  rq_body req = Val body →
  "create" ∈ permissions_of d userRole →
  post userRole req w =
    match validate_required (fields d) body with
    | Exn => (Val (error_response "Failed to create record" 500), w)
    | Val (Some response) => (Val response, w)
    | Val None => (Val (mkResponse 201 (created w body)), tick (tick (tick w)))
    end.
Proof.
  intros Hd Hbody Hperm. apply includes_true in Hperm.
  unfold POST_as, try_catch, bind, lift.
  rewrite Hbody, (load_stored _ _ _ Hd), Hperm. simpl.
  by destruct (validate_required (fields d) body) as [[r|]|].
Qed.

Lemma put_run (userRole currentUserId : string) (req : Request) (w : World)
    (d : ModelDefinition) (id : string) (body : JSON) :
  stored w (rq_modelName req) = Some (Document d) →
  truthy_string (rq_id req) = Some id →
  rq_body req = Val body →
  "update" ∈ permissions_of d userRole →
  put userRole currentUserId req w =
    match truthy_string (ownerField d) with
    | Some owner =>
        match get_prop body owner with
        | Exn => (Val (error_response "Failed to update record" 500), w)
        | Val v =>
            if negb (strict_eq_string v currentUserId) && negb (bool_decide (userRole = "Admin"))
            then (Val (error_response "You can only update your own records" 403), w)
            else (Val (mkResponse 200 (updated w id body)), tick w)
        end
    | None => (Val (mkResponse 200 (updated w id body)), tick w)
    end.
Proof.
  intros Hd Hid Hbody Hperm. apply includes_true in Hperm.
  unfold PUT_as, try_catch, bind, lift.
  rewrite Hbody, Hid, (load_stored _ _ _ Hd), Hperm. simpl.
  destruct (truthy_string (ownerField d)) as [owner|]; [|done].
  destruct (get_prop body owner) as [v|]; [|done].
  unfold ret.
  by destruct (negb (strict_eq_string v currentUserId) && negb (bool_decide (userRole = "Admin"))).
Qed.

Lemma delete_run (userRole : string) (req : Request) (w : World) (d : ModelDefinition)
    (id : string) :
  stored w (rq_modelName req) = Some (Document d) →
  truthy_string (rq_id req) = Some id →
  "delete" ∈ permissions_of d userRole →
  del userRole req w =
    match truthy_string (ownerField d) with
    | Some _ =>
        if negb (bool_decide (userRole = "Admin"))
        then (Val (error_response "You can only delete your own records" 403), w)
        else (Val (mkResponse 200 (JObj {["message" := JStr "Record deleted successfully"]})), w)
    | None => (Val (mkResponse 200 (JObj {["message" := JStr "Record deleted successfully"]})), w)
    end.
Proof.
  intros Hd Hid Hperm. apply includes_true in Hperm.
  unfold DELETE_as, try_catch, bind.
  rewrite Hid, (load_stored _ _ _ Hd), Hperm. simpl.
  destruct (truthy_string (ownerField d)) as [owner|]; [|done].
  by destruct (negb (bool_decide (userRole = "Admin"))).
Qed.

(** C2 (as amended).  On a model with an [ownerField], for a principal
    who is not Admin and whose role includes update, an update is allowed
    if and only if the payload's own value at [ownerField] is the string
    that is the principal's id.  A payload that has no such value and one
    that has another value are refused alike, with the one 403 response
    "You can only update your own records". *)
Theorem owner_gate_on_update (userRole currentUserId : string) (req : Request)
    (w : World) (d : ModelDefinition) (owner id : string) (body : JSON)
    (v : option JSON) :
  userRole ≠ "Admin" →
  stored w (rq_modelName req) = Some (Document d) →
  "update" ∈ permissions_of d userRole →
  truthy_string (ownerField d) = Some owner →
  truthy_string (rq_id req) = Some id →
  rq_body req = Val body →
  get_prop body owner = Val v →
  (v = Some (JStr currentUserId) →
     put userRole currentUserId req w
     = (Val (mkResponse 200 (updated w id body)), tick w))
  ∧ (v ≠ Some (JStr currentUserId) →
     put userRole currentUserId req w
     = (Val (error_response "You can only update your own records" 403), w)).
Proof.
  intros Hrole Hd Hperm Howner Hid Hbody Hv.
  rewrite (put_run _ _ _ _ _ _ _ Hd Hid Hbody Hperm), Howner, Hv.
  rewrite (bool_decide_eq_false_2 _ Hrole). simpl. rewrite andb_true_r.
  split; intros Heq.
  - apply strict_eq_string_spec in Heq. by rewrite Heq.
  - destruct (strict_eq_string v currentUserId) eqn:E; [|done].
    by apply strict_eq_string_spec in E.
Qed.

(** C3.  On a model with an [ownerField], an Admin whose permissions
    include update is allowed to update, and one whose permissions include
    delete is allowed to delete, whatever owner the payload names and
    whoever the principal is. *)
Theorem admin_bypasses_ownership (currentUserId : string) (req : Request) (w : World)
    (d : ModelDefinition) (owner id : string) :
  stored w (rq_modelName req) = Some (Document d) →
  truthy_string (ownerField d) = Some owner →
  truthy_string (rq_id req) = Some id →
  (∀ body, rq_body req = Val body → body ≠ JNull →
     "update" ∈ permissions_of d "Admin" →
     put "Admin" currentUserId req w
     = (Val (mkResponse 200 (updated w id body)), tick w))
  ∧ ("delete" ∈ permissions_of d "Admin" →
     del "Admin" req w
     = (Val (mkResponse 200 (JObj {["message" := JStr "Record deleted successfully"]})), w)).
Proof.
  intros Hd Howner Hid. split.
  - intros body Hbody Hnull Hperm.
    rewrite (put_run _ _ _ _ _ _ _ Hd Hid Hbody Hperm), Howner.
    destruct body; try done; simpl;
      repeat case_bool_decide; try done; by rewrite andb_false_r.
  - intros Hperm. by rewrite (delete_run _ _ _ _ _ Hd Hid Hperm), Howner.
Qed.



End RouteFacts.

Ltac decide_by_computation := apply (bool_decide_unpack _); vm_compute; exact I.

(** C4 (as amended).  For the Product model, creation with the payload
    [{name: "Laptop", price: "999.99"}] is accepted, and the record in the
    201 response carries the payload's properties as they were sent:
    [name] is "Laptop", [price] is still the string "999.99" and there is
    no [isActive]; to these the handler adds [id], [createdAt] and
    [updatedAt]. *)
Theorem create_keeps_payload_as_sent (path_join : string → string → string)
    (clock : nat → Z) (toISOString : Z → string) (userRole : string)
    (req : Request) (w : World) (d : ModelDefinition) :
  files w !! getModelFilePath path_join "./models" (rq_modelName req) = Some (Document d) →
  fields d = Scenario.product_fields →
  "create" ∈ permissions_of d userRole →
  rq_body req = Val Scenario.laptop_payload →
  ∃ record,
    POST_as path_join clock toISOString userRole req w
    = (Val (mkResponse 201 (JObj record)), tick (tick (tick w)))
    ∧ record !! "name" = Some (JStr "Laptop")
    ∧ record !! "price" = Some (JStr "999.99")
    ∧ record !! "isActive" = None
    ∧ record !! "id" = Some (JStr ("mock-" +:+ pretty (clock (clock_reads w))))
    ∧ record !! "createdAt" = Some (JStr (toISOString (clock (S (clock_reads w)))))
    ∧ record !! "updatedAt" = Some (JStr (toISOString (clock (S (S (clock_reads w))))))
    ∧ dom record = list_to_set ["id"; "name"; "price"; "createdAt"; "updatedAt"].
Proof.
  intros Hd Hfields Hperm Hbody.
  rewrite (post_run _ _ _ _ _ _ _ _ Hd Hbody Hperm), Hfields.
  assert (validate_required Scenario.product_fields Scenario.laptop_payload = Val None)
    as -> by (vm_compute; reflexivity).
  eexists. split; [reflexivity|].
  repeat split; try (vm_compute; reflexivity).
Qed.

(** ** What is checked before a definition is written *)

Lemma get_prop_not_null (body : JSON) (k : string) :
  body ≠ JNull → ∃ v, get_prop body k = Val v.
Proof. destruct body; simpl; try case_bool_decide; eauto. done. Qed.

Lemma guard_on_fields (v : option JSON) :
  (∀ item items, v ≠ Some (JArr (item :: items))) →
  negb (truthy v) || (negb (isArray v) || length_is_zero v) = true.
Proof.
  intros H.
  destruct v as [[| b | m e | s | [|item items] | props]|]; simpl;
    rewrite ?orb_true_r; try done.
  by destruct (H item items).
Qed.

Section SaveFacts.

Variable path_join : string → string → string.
Variable clock : nat → Z.
Variable modelsDir : string.
Variable Db : Type.
Variable db_create : CreateData → Async Db JSON.


End SaveFacts.

(** ** Examples on the reference platform *)

Module Examples.
Import Scenario.

Abbreviation POST_on := (POST_as Node.path_join Node.clock Node.toISOString).
Abbreviation PUT_on := (PUT_as Node.path_join Node.clock Node.toISOString).
Abbreviation DELETE_on := (DELETE_as Node.path_join).

Example Product_stored :
  files w_models !! getModelFilePath Node.path_join "./models" "Product"
  = Some (Document Product).
Proof. vm_compute. reflexivity. Qed.

Example Ticket_stored :
  files w_models !! getModelFilePath Node.path_join "./models" "Ticket"
  = Some (Document Ticket).
Proof. vm_compute. reflexivity. Qed.

(** The scenario of the specification: a Viewer may not create. *)
Example viewer_cannot_create :
  POST_on "Viewer" (mkRequest "Product" None (Val laptop_payload)) w_models
  = (Val (error_response "Insufficient permissions" 403), w_models).
Proof. vm_compute. reflexivity. Qed.

(** The handlers as exported run as Admin. *)
Example admin_creates :
  POST Node.path_join Node.clock Node.toISOString
       (mkRequest "Product" None (Val laptop_payload)) w_models
  = (Val (mkResponse 201
            (JObj (<["id" := JStr "mock-1704067200000"]>
                     (<["name" := JStr "Laptop"]>
                        (<["price" := JStr "999.99"]>
                           (<["createdAt" := JStr "2024-01-01T00:00:00.001Z"]>
                              (<["updatedAt" := JStr "2024-01-01T00:00:00.002Z"]> ∅))))))),
     mkWorld true (files w_models) 3 0).
Proof. vm_compute. reflexivity. Qed.

(** C2, counterexample.  On [Ticket] a Manager, whose role includes
    delete, is refused every delete, whatever the record and whatever the
    request says of its owner; and an update whose payload names no owner
    gets the very response of one that names another owner. *)
Lemma owner_rule_counterexample :
  (∀ id body, ¬ allowed (DELETE_on "Manager" (mkRequest "Ticket" id body) w_models))
  ∧ "delete" ∈ permissions_of Ticket "Manager"
  ∧ PUT_on "Manager" "u1" (mkRequest "Ticket" (Some "t-1") (Val (JObj ∅))) w_models
    = PUT_on "Manager" "u1"
        (mkRequest "Ticket" (Some "t-1") (Val (JObj {["ownerId" := JStr "u2"]}))) w_models.
Proof.
  split; [|split; [decide_by_computation|vm_compute; reflexivity]].
  intros id body (response & w' & Hrun & Hstatus).
  assert ("delete" ∈ permissions_of Ticket "Manager") as Hperm by decide_by_computation.
  destruct (truthy_string id) as [id'|] eqn:Hid.
  - rewrite (delete_run Node.path_join "Manager" (mkRequest "Ticket" id body) w_models
               Ticket id' Ticket_stored Hid Hperm) in Hrun.
    simpl in Hrun. injection Hrun as <- <-. discriminate.
  - unfold DELETE_as, try_catch, bind in Hrun. cbn [rq_id] in Hrun.
    rewrite Hid in Hrun. injection Hrun as <- <-. discriminate.
Qed.

(** C4, counterexample.  The record created from
    [{name: "Laptop", price: "999.99"}] is not the normalized record: its
    [price] is the string that was sent and it has no [isActive]. *)
Lemma normalization_counterexample :
  ¬ normalized_as_specified
      (POST_on "Admin" (mkRequest "Product" None (Val laptop_payload)) w_models).
Proof.
  intros (record & w' & Hrun & _ & (m & e & Hprice) & _).
  assert ("create" ∈ permissions_of Product "Admin") as Hperm by decide_by_computation.
  rewrite (post_run Node.path_join Node.clock Node.toISOString "Admin"
             (mkRequest "Product" None (Val laptop_payload)) w_models Product
             laptop_payload Product_stored eq_refl Hperm) in Hrun.
  assert (validate_required (fields Product) laptop_payload = Val None) as Hv
    by (vm_compute; reflexivity).
  rewrite Hv in Hrun. injection Hrun as <- _.
  vm_compute in Hprice. discriminate.
Qed.


Example first_violation_response :
  POST_on "Admin" (mkRequest "Product" None (Val (JObj ∅))) w_models
  = (Val (error_response "Field 'name' is required" 400), w_models).
Proof. vm_compute. reflexivity. Qed.


(** C8, counterexample.  The load of a document that does not parse and
    the load of a name without document cannot be told apart. *)
Lemma corrupt_counterexample :
  ¬ corrupt_told_from_missing Node.path_join "./models" w_models "Broken" "Absent".
Proof. intros H. apply H. vm_compute. reflexivity. Qed.


End Examples.

(** ** The theorems at concrete inputs *)

Module Witnesses.
Import Scenario Examples.


(** The Task scenario of the specification, on [Ticket]: Manager [u1]
    updates a record that the payload gives to [u1], then one it gives to
    [u2]. *)
Lemma owner_gate_on_update_witness :
  PUT_on "Manager" "u1"
    (mkRequest "Ticket" (Some "t-1") (Val (JObj {["ownerId" := JStr "u1"]}))) w_models
  = (Val (mkResponse 200
            (updatedRecord Node.clock Node.toISOString w_models "t-1"
               (JObj {["ownerId" := JStr "u1"]}))), tick w_models)
  ∧ PUT_on "Manager" "u1"
      (mkRequest "Ticket" (Some "t-1") (Val (JObj {["ownerId" := JStr "u2"]}))) w_models
    = (Val (error_response "You can only update your own records" 403), w_models).
Proof.
  split.
  - apply (owner_gate_on_update Node.path_join Node.clock Node.toISOString "Manager" "u1"
             (mkRequest "Ticket" (Some "t-1") (Val (JObj {["ownerId" := JStr "u1"]})))
             w_models Ticket "ownerId" "t-1" (JObj {["ownerId" := JStr "u1"]})
             (Some (JStr "u1")));
      try (vm_compute; reflexivity); [discriminate|decide_by_computation].
  - apply (owner_gate_on_update Node.path_join Node.clock Node.toISOString "Manager" "u1"
             (mkRequest "Ticket" (Some "t-1") (Val (JObj {["ownerId" := JStr "u2"]})))
             w_models Ticket "ownerId" "t-1" (JObj {["ownerId" := JStr "u2"]})
             (Some (JStr "u2")));
      try (vm_compute; reflexivity); [discriminate|decide_by_computation|discriminate].
Defined.

(** An Admin [u1] updates and deletes a record that belongs to [u2]. *)
Lemma admin_bypasses_ownership_witness :
  PUT_on "Admin" "u1"
    (mkRequest "Ticket" (Some "t-1") (Val (JObj {["ownerId" := JStr "u2"]}))) w_models
  = (Val (mkResponse 200
            (updatedRecord Node.clock Node.toISOString w_models "t-1"
               (JObj {["ownerId" := JStr "u2"]}))), tick w_models)
  ∧ DELETE_on "Admin"
      (mkRequest "Ticket" (Some "t-1") (Val (JObj {["ownerId" := JStr "u2"]}))) w_models
    = (Val (mkResponse 200 (JObj {["message" := JStr "Record deleted successfully"]})),
       w_models).
Proof.
  destruct (admin_bypasses_ownership Node.path_join Node.clock Node.toISOString "u1"
              (mkRequest "Ticket" (Some "t-1") (Val (JObj {["ownerId" := JStr "u2"]})))
              w_models Ticket "ownerId" "t-1") as [Hput Hdelete];
    try (vm_compute; reflexivity).
  split.
  - apply Hput; [reflexivity|discriminate|decide_by_computation].
  - apply Hdelete. decide_by_computation.
Defined.

Lemma create_keeps_payload_as_sent_witness :
  ∃ record,
    POST_on "Admin" (mkRequest "Product" None (Val laptop_payload)) w_models
    = (Val (mkResponse 201 (JObj record)), tick (tick (tick w_models)))
    ∧ record !! "name" = Some (JStr "Laptop")
    ∧ record !! "price" = Some (JStr "999.99")
    ∧ record !! "isActive" = None.
Proof.
  destruct (create_keeps_payload_as_sent Node.path_join Node.clock Node.toISOString
              "Admin" (mkRequest "Product" None (Val laptop_payload)) w_models Product)
    as (record & Hrun & Hname & Hprice & Hactive & _);
    try (vm_compute; reflexivity); [decide_by_computation|].
  exists record. repeat split; assumption.
Defined.



Lemma loadModel_corrupt_is_null_witness :
  loadModel Node.path_join "./models" "Broken" w_models = (Val None, w_models)
  ∧ ∀ n', files w_models !! getModelFilePath Node.path_join "./models" n' = None →
          loadModel Node.path_join "./models" n' w_models
          = loadModel Node.path_join "./models" "Broken" w_models.
Proof.
  apply (loadModel_corrupt_is_null Node.path_join "./models" w_models "Broken" "{ name: ").
  vm_compute. reflexivity.
Defined.


Lemma updateModel_missing_witness :
  updateModel Node.path_join Node.clock "./models" "Absent" no_updates w_models
  = (Val false, w_models).
Proof.
  apply (updateModel_missing Node.path_join Node.clock "./models" w_models "Absent" no_updates).
  vm_compute. reflexivity.
Defined.

End Witnesses.

(** * Further properties of the code *)

(** ** The model store: delete, exists, update, list *)

Section StoreFacts.

Variable path_join : string → string → string.
Variable clock : nat → Z.
Variable readdir : string → World → Res (list string).
Variable modelsDir : string.

Local Abbreviation path := (getModelFilePath path_join modelsDir).
Local Abbreviation load := (loadModel path_join modelsDir).
Local Abbreviation save := (saveModel path_join clock modelsDir).
Local Abbreviation update := (updateModel path_join clock modelsDir).
Local Abbreviation remove := (deleteModel path_join modelsDir).
Local Abbreviation exists_ := (modelExists path_join modelsDir).
Local Abbreviation load_all := (loadAllModels path_join readdir modelsDir).
Local Abbreviation after_update := (updated_world path_join clock modelsDir).
Local Abbreviation entry := (entry_model path_join modelsDir).

Lemma loadModel_fst (w : World) (n : string) :
  fst (load n w)
  = Val (match files w !! path n with Some (Document d) => Some d | _ => None end).
Proof.
  destruct (files w !! path n) as [[d|raw]|] eqn:E.
  - by rewrite (loadModel_document _ _ _ _ _ E).
  - by rewrite (loadModel_malformed _ _ _ _ _ E).
  - by rewrite (loadModel_absent _ _ _ _ E).
Qed.

(** Saving a definition changes what is loaded under its own file only:
    a name that maps to another path loads as before. *)
Theorem saveModel_leaves_other_names (d : ModelDefinition) (w : World) (n : string) :
  path n ≠ path (name d) →
  fst (load n (snd (save d w))) = fst (load n w).
Proof.
  intros Hne. rewrite saveModel_run, !loadModel_fst. simpl.
  by rewrite lookup_insert_ne.
Qed.

(** [deleteModel] removes the file of the name, be it a definition or a
    text that does not parse, and returns [true]: the name then loads as
    [null] and every other file is as before.  When there is no file it
    returns [false] and changes nothing. *)
Theorem deleteModel_outcome (w : World) (n : string) :
  (is_Some (files w !! path n) →
     ∃ w', remove n w = (Val true, w')
           ∧ load n w' = (Val None, w')
           ∧ dir_exists w' = dir_exists w
           ∧ ∀ p, p ≠ path n → files w' !! p = files w !! p)
  ∧ (files w !! path n = None → remove n w = (Val false, w)).
Proof.
  split.
  - intros [c Hc]. eexists. split; [|split; [|split]].
    + unfold deleteModel, try_catch, bind, fs_unlink.
      change (path_join modelsDir (n +:+ ".json")) with (path n). rewrite Hc. reflexivity.
    + apply loadModel_absent. simpl. apply lookup_delete_eq.
    + reflexivity.
    + intros p Hp. simpl. by apply lookup_delete_ne.
  - intros Hc. unfold deleteModel, try_catch, bind, fs_unlink.
    change (path_join modelsDir (n +:+ ".json")) with (path n). by rewrite Hc.
Qed.

(** A name that loads exists; a name that exists need not load: over a
    text that does not parse, [modelExists] is [true] and [loadModel] is
    [null]. *)
Theorem modelExists_and_loadModel (w : World) (n : string) :
  (∀ d, fst (load n w) = Val (Some d) → exists_ n w = (Val true, w))
  ∧ (∀ raw, files w !! path n = Some (Malformed raw) →
       exists_ n w = (Val true, w) ∧ load n w = (Val None, w))
  ∧ (files w !! path n = None → exists_ n w = (Val false, w)).
Proof.
  assert (∀ c, files w !! path n = Some c → exists_ n w = (Val true, w)) as Hsome.
  { intros c Hc. unfold modelExists, try_catch, bind, fs_access.
    change (path_join modelsDir (n +:+ ".json")) with (path n). by rewrite Hc. }
  split; [|split].
  - intros d Hd. rewrite loadModel_fst in Hd.
    destruct (files w !! path n) as [c|] eqn:E; [by eapply Hsome|done].
  - intros raw Hraw. split; [by eapply Hsome|by eapply loadModel_malformed].
  - intros Hnone. unfold modelExists, try_catch, bind, fs_access.
    change (path_join modelsDir (n +:+ ".json")) with (path n). by rewrite Hnone.
Qed.

Lemma updateModel_run (w : World) (n : string) (updates : ModelUpdates)
    (d : ModelDefinition) :
  files w !! path n = Some (Document d) →
  update n updates w = (Val true, after_update d updates w).
Proof.
  intros H. unfold updateModel, try_catch, bind.
  rewrite (loadModel_document _ _ _ _ _ H). unfold new_Date.
  rewrite saveModel_run. reflexivity.
Qed.



Lemma loadAllModels_loop_run (w : World) (modelFiles : list string)
    (models : list ModelDefinition) :
  loadAllModels_loop path_join modelsDir modelFiles models w
  = (Val (models ++ omap (entry w) modelFiles)%list, w).
Proof.
  revert models. induction modelFiles as [|file rest IH]; intros models; simpl.
  - unfold ret. by rewrite app_nil_r.
  - unfold bind, try_catch, fs_readFile, lift, entry_model.
    destruct (files w !! path_join modelsDir file) as [[d|raw]|]; simpl.
    + fold (entry_model path_join modelsDir w). rewrite IH. by rewrite <- app_assoc.
    + fold (entry_model path_join modelsDir w). by rewrite IH.
    + fold (entry_model path_join modelsDir w). by rewrite IH.
Qed.

(** Where the models directory exists, [loadAllModels] does not
    reject.  It returns, in the order of the directory, the definitions
    of the entries whose name ends in ".json" and whose file parses; the
    other entries are passed over, and a directory that cannot be read
    gives the empty list.  Nothing is changed. *)
Theorem loadAllModels_outcome (w : World) :
  dir_exists w = true →
  load_all w
  = (Val match readdir modelsDir w with
         | Val entries =>
             omap (entry w) (filter (λ file, endsWith file ".json" = true) entries)
         | Exn => []
         end, w).
Proof.
  intros Hdir. unfold loadAllModels, bind, ensureModelsDirectory, try_catch,
    fs_access_dir, fs_readdir. rewrite Hdir.
  destruct (readdir modelsDir w) as [entries|]; [|done].
  by rewrite loadAllModels_loop_run.
Qed.

End StoreFacts.

(** ** [generatePrismaSchema] *)

Lemma append_assoc (s1 s2 s3 : string) : (s1 +:+ s2) +:+ s3 = s1 +:+ s2 +:+ s3.
Proof. induction s1 as [|c s1 IH]; [done|exact (f_equal (String c) IH)]. Qed.

Lemma append_empty (s : string) : s +:+ "" = s.
Proof. induction s as [|c s IH]; [done|exact (f_equal (String c) IH)]. Qed.

Lemma fieldLines_app (fs1 fs2 : list Field) :
  fieldLines (fs1 ++ fs2) = fieldLines fs1 +:+ fieldLines fs2.
Proof.
  induction fs1 as [|f fs1 IH]; [done|].
  change (fieldLines ((f :: fs1) ++ fs2))
    with (fieldLine f +:+ nl +:+ fieldLines (fs1 ++ fs2)).
  change (fieldLines (f :: fs1)) with (fieldLine f +:+ nl +:+ fieldLines fs1).
  by rewrite IH, !append_assoc.
Qed.

Lemma forEach_fieldLines (fs : list Field) (schema : string) :
  fold_left (λ schema field, schema +:+ fieldLine field +:+ nl) fs schema
  = schema +:+ fieldLines fs.
Proof.
  revert schema. induction fs as [|f fs IH]; intros schema.
  - simpl. by rewrite append_empty.
  - change (fieldLines (f :: fs)) with (fieldLine f +:+ nl +:+ fieldLines fs).
    cbn [fold_left]. by rewrite IH, !append_assoc.
Qed.

Lemma fieldLines_text_as_string (fs : list Field) :
  fieldLines (string_for_text <$> fs) = fieldLines fs.
Proof.
  induction fs as [|f fs IH]; [done|].
  rewrite fmap_cons.
  change (fieldLines (string_for_text f :: (string_for_text <$> fs)))
    with (fieldLine (string_for_text f) +:+ nl +:+ fieldLines (string_for_text <$> fs)).
  change (fieldLines (f :: fs)) with (fieldLine f +:+ nl +:+ fieldLines fs).
  rewrite IH. f_equal. unfold fieldLine, string_for_text.
  cbn [f_name f_type f_required f_default f_unique]. by destruct (f_type f).
Qed.

(** The schema does not tell [text] from [string]: both become a
    [String] column with a quoted default. *)
Theorem schema_text_is_string (model : ModelDefinition) :
  generatePrismaSchema (text_as_string model) = generatePrismaSchema model.
Proof.
  unfold generatePrismaSchema, text_as_string. simpl.
  by rewrite !forEach_fieldLines, fieldLines_text_as_string.
Qed.

(** When a field bears the name of [ownerField], the schema declares
    that column twice: once as the owner column, once as the field. *)
Theorem schema_owner_column_twice (model : ModelDefinition) (owner : string)
    (field : Field) :
  truthy_string (ownerField model) = Some owner →
  field ∈ fields model →
  f_name field = owner →
  ∃ before between rest after,
    generatePrismaSchema model
    = before +:+ ("  " +:+ owner +:+ " String" +:+ nl)
        +:+ between +:+ ("  " +:+ owner +:+ "  " +:+ rest +:+ nl) +:+ after.
Proof.
  intros Howner Hin Hname.
  apply list_elem_of_split in Hin as (fs1 & fs2 & Hfields).
  assert (∃ rest, fieldLine field = "  " +:+ owner +:+ "  " +:+ rest) as [rest Hline].
  { unfold fieldLine. rewrite Hname.
    destruct (truthy_flag (f_required field)), (truthy_flag (f_unique field)),
      (truthy_string (f_default field)), (f_type field);
      rewrite ?append_assoc; eexists; reflexivity. }
  exists ("model " +:+ name model +:+ " {" +:+ nl
          +:+ "  id        String   @id @default(cuid())" +:+ nl),
    (fieldLines fs1), rest,
    (fieldLines fs2 +:+ "  createdAt DateTime @default(now())" +:+ nl
       +:+ "  updatedAt DateTime @updatedAt" +:+ nl +:+ "}" +:+ nl).
  unfold generatePrismaSchema. rewrite Howner, forEach_fieldLines, Hfields, fieldLines_app.
  change (fieldLines (field :: fs2)) with (fieldLine field +:+ nl +:+ fieldLines fs2).
  rewrite Hline. by rewrite !append_assoc.
Qed.

(** ** The dynamic CRUD route: what the handlers do to the store *)

Lemma keeps_ret {A} (a : A) : keeps_store (ret a).
Proof. by intros w. Qed.

Lemma keeps_lift {A} (r : Res A) : keeps_store (lift r).
Proof. by intros w. Qed.

Lemma keeps_bind {A B} (m : M A) (k : A → M B) :
  keeps_store m → (∀ a, keeps_store (k a)) → keeps_store (bind m k).
Proof.
  intros Hm Hk w. unfold bind. specialize (Hm w).
  destruct (m w) as [[a|] w1]; simpl in *; [|done].
  destruct (Hk a w1) as [Hf Hd]. by rewrite Hf, Hd.
Qed.

Lemma keeps_try_catch {A} (m handler : M A) :
  keeps_store m → keeps_store handler → keeps_store (try_catch m handler).
Proof.
  intros Hm Hh w. unfold try_catch. specialize (Hm w).
  destruct (m w) as [[a|] w1]; simpl in *; [done|].
  destruct (Hh w1) as [Hf Hd]. by rewrite Hf, Hd.
Qed.

Lemma try_catch_returns {A} (m : M A) (a : A) (w : World) :
  ∃ r w', try_catch m (ret a) w = (Val r, w').
Proof. unfold try_catch. destruct (m w) as [[r|] w1]; by eexists _, _. Qed.

Ltac keeps_store_step :=
  first
    [ apply keeps_ret
    | apply keeps_lift
    | apply keeps_try_catch
    | apply keeps_bind; [|intros ?]
    | match goal with
      | |- keeps_store (match ?x with _ => _ end) => destruct x
      | |- keeps_store (let _ := _ in _) => cbv zeta
      end ].

Section HandlerStoreFacts.

Variable path_join : string → string → string.
Variable clock : nat → Z.
Variable Math_random : nat → Q.
Variable toISOString : Z → string.
Variable parseFloat : string → JSON.

Local Abbreviation handler :=
  (handler_as path_join clock Math_random toISOString parseFloat).

Lemma keeps_new_Date : keeps_store (new_Date clock).
Proof. by intros w. Qed.

Lemma keeps_random : keeps_store (random Math_random).
Proof. by intros w. Qed.

Lemma keeps_loadModel (dir n : string) : keeps_store (loadModel path_join dir n).
Proof. intros w. by destruct (loadModel_total path_join dir w n) as [r ->]. Qed.

Lemma keeps_mock_value (field : Field) :
  keeps_store (mock_value clock Math_random toISOString parseFloat field).
Proof.
  unfold mock_value.
  destruct (f_type field); repeat first [apply keeps_new_Date | apply keeps_random
                                        | keeps_store_step].
Qed.

Lemma keeps_getMockData_from (fs : list Field) (data : gmap string JSON) :
  keeps_store (getMockData_from clock Math_random toISOString parseFloat fs data).
Proof.
  revert data. induction fs as [|f fs IH]; intros data; simpl.
  - apply keeps_ret.
  - apply keeps_bind; [apply keeps_mock_value|]. intros v. apply IH.
Qed.

Lemma keeps_mockRecords (d : ModelDefinition) (i n : nat) :
  keeps_store (mockRecords clock Math_random toISOString parseFloat d i n).
Proof.
  revert i. induction n as [|n IH]; intros i; simpl.
  - apply keeps_ret.
  - apply keeps_bind; [apply keeps_getMockData_from|]. intros data.
    apply keeps_bind; [apply IH|]. intros rest. apply keeps_ret.
Qed.

Lemma keeps_handler (userRole currentUserId : string) (a : Action) (req : Request) :
  keeps_store (handler userRole currentUserId a req).
Proof.
  destruct a; simpl.
  - unfold POST_as, modelPersistence_loadModel.
    repeat first [apply keeps_loadModel | apply keeps_new_Date | keeps_store_step].
  - unfold GET_as, modelPersistence_loadModel, getMockData.
    repeat first [apply keeps_loadModel | apply keeps_getMockData_from
                 | apply keeps_mockRecords | keeps_store_step].
  - unfold PUT_as, modelPersistence_loadModel.
    repeat first [apply keeps_loadModel | apply keeps_new_Date | keeps_store_step].
  - unfold DELETE_as, modelPersistence_loadModel.
    repeat first [apply keeps_loadModel | keeps_store_step].
Qed.

(** Whatever the principal, the action and the request, the handler
    answers with a response (no rejection leaves it), and the model store
    is as before: no file is written or removed, no directory made. *)
Theorem handlers_respond_and_keep_store (userRole currentUserId : string) (a : Action)
    (req : Request) (w : World) :
  ∃ response w',
    handler userRole currentUserId a req w = (Val response, w')
    ∧ files w' = files w ∧ dir_exists w' = dir_exists w.
Proof.
  destruct (keeps_handler userRole currentUserId a req w) as [Hf Hd].
  assert (∃ r w', handler userRole currentUserId a req w = (Val r, w')) as (r & w' & E).
  { destruct a; apply try_catch_returns. }
  rewrite E in Hf, Hd. by exists r, w'.
Qed.

End HandlerStoreFacts.

(** ** The dynamic CRUD route: the order of the checks and the records *)

Section RouteMoreFacts.

Variable path_join : string → string → string.
Variable clock : nat → Z.
Variable Math_random : nat → Q.
Variable toISOString : Z → string.
Variable parseFloat : string → JSON.

Local Abbreviation stored w n := (files w !! getModelFilePath path_join "./models" n).
Local Abbreviation get := (GET_as path_join clock Math_random toISOString parseFloat).
Local Abbreviation post := (POST_as path_join clock toISOString).
Local Abbreviation put := (PUT_as path_join clock toISOString).
Local Abbreviation del := (DELETE_as path_join).
Local Abbreviation handler :=
  (handler_as path_join clock Math_random toISOString parseFloat).
Local Abbreviation created := (newRecord clock toISOString).
Local Abbreviation updated := (updatedRecord clock toISOString).

Lemma load_not_stored (w : World) (n : string) :
  (∀ d, stored w n ≠ Some (Document d)) →
  modelPersistence_loadModel path_join n w = (Val None, w).
Proof.
  intros H. unfold modelPersistence_loadModel.
  destruct (stored w n) as [[d|raw]|] eqn:E.
  - by destruct (H d).
  - by eapply loadModel_malformed.
  - by apply loadModel_absent.
Qed.

(** For a model name whose file is missing or does not parse, every
    handler answers 404 "Model not found", whoever asks and whatever the
    request that reaches the lookup carries. *)
Theorem unknown_model_is_404 (userRole currentUserId : string) (a : Action)
    (req : Request) (w : World) :
  (∀ d, stored w (rq_modelName req) ≠ Some (Document d)) →
  well_formed a req →
  handler userRole currentUserId a req w = (Val (error_response "Model not found" 404), w).
Proof.
  intros Hd Hwf. destruct a; simpl in *.
  - destruct Hwf as [body Hbody]. unfold POST_as, try_catch, bind, lift.
    by rewrite Hbody, (load_not_stored _ _ Hd).
  - unfold GET_as, try_catch, bind. by rewrite (load_not_stored _ _ Hd).
  - destruct Hwf as [[body Hbody] [id Hid]]. unfold PUT_as, try_catch, bind, lift.
    by rewrite Hbody, Hid, (load_not_stored _ _ Hd).
  - destruct Hwf as [id Hid]. unfold DELETE_as, try_catch, bind.
    by rewrite Hid, (load_not_stored _ _ Hd).
Qed.

(** The shape of the request is judged before the model and the
    permissions: a body that is not JSON makes [POST] and [PUT] answer
    500, and a missing or empty [id] makes [PUT] (once the body is read)
    and [DELETE] answer 400 "Record ID is required", whether or not the
    model exists and whatever the role may do. *)
Theorem request_shape_comes_first (userRole currentUserId : string) (req : Request)
    (w : World) :
  (rq_body req = Exn →
     post userRole req w = (Val (error_response "Failed to create record" 500), w)
     ∧ put userRole currentUserId req w
       = (Val (error_response "Failed to update record" 500), w))
  ∧ (truthy_string (rq_id req) = None →
       (∀ body, rq_body req = Val body →
          put userRole currentUserId req w
          = (Val (error_response "Record ID is required" 400), w))
       ∧ del userRole req w = (Val (error_response "Record ID is required" 400), w)).
Proof.
  split.
  - intros Hbody. unfold POST_as, PUT_as, try_catch, bind, lift. by rewrite Hbody.
  - intros Hid. split.
    + intros body Hbody. unfold PUT_as, try_catch, bind, lift. by rewrite Hbody, Hid.
    + unfold DELETE_as, try_catch, bind. by rewrite Hid.
Qed.

Lemma falsy_value_truthy (v : JSON) : falsy_value v → truthy (Some v) = false.
Proof. by intros [->|[->|[->|[e ->]]]]. Qed.

(** A required field that the payload does carry, but with [null],
    [false], [0] or the empty string, is refused like a missing one. *)
Theorem falsy_counts_as_missing (userRole : string) (req : Request) (w : World)
    (d : ModelDefinition) (m : gmap string JSON) (field : Field) (v : JSON) :
  stored w (rq_modelName req) = Some (Document d) →
  "create" ∈ permissions_of d userRole →
  rq_body req = Val (JObj m) →
  field ∈ fields d → f_required field = Some true →
  m !! f_name field = Some v → falsy_value v →
  ∃ g, g ∈ fields d ∧ f_required g = Some true
       ∧ post userRole req w = (Val (required_message g), w).
Proof.
  intros Hd Hperm Hbody Hin Hreq Hv Hfalsy.
  rewrite (post_run _ _ _ _ _ _ _ _ Hd Hbody Hperm).
  destruct (validate_required_object m (fields d) field Hin Hreq) as (g & Hg & Hgreq & ->);
    [by rewrite Hv, falsy_value_truthy|by exists g].
Qed.

(** When every required field has a truthy value the record is created,
    and it is the payload with three properties set by the handler: every
    property of the payload, declared as a field or not, is in the record
    as it was sent, except [createdAt] and [updatedAt], which are the
    handler's; the [id] is the payload's when it has one, and
    ["mock-<time>"] otherwise. *)
Theorem created_record_is_payload (userRole : string) (req : Request) (w : World)
    (d : ModelDefinition) (body : JSON) :
  stored w (rq_modelName req) = Some (Document d) →
  "create" ∈ permissions_of d userRole →
  rq_body req = Val body →
  Forall (passes body) (fields d) →
  ∃ record,
    post userRole req w = (Val (mkResponse 201 (JObj record)), tick (tick (tick w)))
    ∧ (∀ k, k ≠ "id" → k ≠ "createdAt" → k ≠ "updatedAt" →
         record !! k = spread body !! k)
    ∧ record !! "id"
      = Some (default (JStr ("mock-" +:+ pretty (clock (clock_reads w))))
                      (spread body !! "id"))
    ∧ record !! "createdAt" = Some (JStr (toISOString (clock (S (clock_reads w)))))
    ∧ record !! "updatedAt" = Some (JStr (toISOString (clock (S (S (clock_reads w)))))).
Proof.
  intros Hd Hperm Hbody Hpass.
  rewrite (post_run _ _ _ _ _ _ _ _ Hd Hbody Hperm), (validate_required_all_pass _ _ Hpass).
  eexists. split; [reflexivity|]. split; [|split; [|split]].
  - intros k Hid Hc Hu. rewrite !lookup_insert_ne by done.
    rewrite lookup_union, lookup_singleton_ne by done.
    by destruct (spread body !! k).
  - rewrite !lookup_insert_ne by done.
    rewrite lookup_union, lookup_singleton_eq.
    by destruct (spread body !! "id").
  - rewrite lookup_insert_ne by done. by rewrite lookup_insert_eq.
  - by rewrite lookup_insert_eq.
Qed.

(** Whenever an update is accepted, the record answered is the payload
    with [updatedAt] set by the handler; its [id] is the payload's [id]
    when the payload has one, and only otherwise the id of the request. *)
Theorem updated_record_is_payload (userRole currentUserId : string) (req : Request)
    (w : World) (d : ModelDefinition) (id : string) (body : JSON)
    (response : Response) (w' : World) :
  stored w (rq_modelName req) = Some (Document d) →
  "update" ∈ permissions_of d userRole →
  truthy_string (rq_id req) = Some id →
  rq_body req = Val body →
  put userRole currentUserId req w = (Val response, w') →
  status response = 200%nat →
  ∃ record,
    payload response = JObj record ∧ w' = tick w
    ∧ (∀ k, k ≠ "id" → k ≠ "updatedAt" → record !! k = spread body !! k)
    ∧ record !! "id" = Some (default (JStr id) (spread body !! "id"))
    ∧ record !! "updatedAt" = Some (JStr (toISOString (clock (clock_reads w)))).
Proof.
  intros Hd Hperm Hid Hbody Hrun Hstatus.
  rewrite (put_run _ _ _ _ _ _ _ _ _ _ Hd Hid Hbody Hperm) in Hrun.
  assert ((Val (mkResponse 200 (updated w id body)), tick w) = (Val response, w')) as E.
  { destruct (truthy_string (ownerField d)) as [owner|]; [|done].
    destruct (get_prop body owner) as [v|];
      [|injection Hrun as <- <-; discriminate Hstatus].
    destruct (negb (strict_eq_string v currentUserId)
              && negb (bool_decide (userRole = "Admin")));
      [injection Hrun as <- <-; discriminate Hstatus|done]. }
  injection E as <- <-. eexists. split; [reflexivity|]. split; [done|].
  split; [|split].
  - intros k Hk Hu. rewrite lookup_insert_ne by done.
    rewrite lookup_union, lookup_singleton_ne by done.
    by destruct (spread body !! k).
  - rewrite lookup_insert_ne by done. rewrite lookup_union, lookup_singleton_eq.
    by destruct (spread body !! "id").
  - by rewrite lookup_insert_eq.
Qed.

(** On a model without [ownerField] (absent, or the empty string the
    form submits) the permission alone decides: any role that lists
    update may update any record, and any role that lists delete may
    delete any record. *)
Theorem no_owner_field_no_ownership (userRole currentUserId : string) (req : Request)
    (w : World) (d : ModelDefinition) (id : string) :
  stored w (rq_modelName req) = Some (Document d) →
  ownerField d = None ∨ ownerField d = Some "" →
  truthy_string (rq_id req) = Some id →
  (∀ body, rq_body req = Val body → "update" ∈ permissions_of d userRole →
     put userRole currentUserId req w
     = (Val (mkResponse 200 (updated w id body)), tick w))
  ∧ ("delete" ∈ permissions_of d userRole →
     del userRole req w
     = (Val (mkResponse 200 (JObj {["message" := JStr "Record deleted successfully"]})), w)).
Proof.
  intros Hd Howner Hid.
  assert (truthy_string (ownerField d) = None) as Hnone by (by destruct Howner as [->| ->]).
  split.
  - intros body Hbody Hperm.
    by rewrite (put_run _ _ _ _ _ _ _ _ _ _ Hd Hid Hbody Hperm), Hnone.
  - intros Hperm. by rewrite (delete_run _ _ _ _ _ _ Hd Hid Hperm), Hnone.
Qed.

End RouteMoreFacts.

(** ** The mock records of [GET] *)

Section MockFacts.

Variable path_join : string → string → string.
Variable clock : nat → Z.
Variable Math_random : nat → Q.
Variable toISOString : Z → string.
Variable parseFloat : string → JSON.

Local Abbreviation stored w n := (files w !! getModelFilePath path_join "./models" n).
Local Abbreviation get := (GET_as path_join clock Math_random toISOString parseFloat).
Local Abbreviation mock := (mock_value clock Math_random toISOString parseFloat).
Local Abbreviation mock_from :=
  (getMockData_from clock Math_random toISOString parseFloat).
Local Abbreviation mock_data := (getMockData clock Math_random toISOString parseFloat).
Local Abbreviation mock_records :=
  (mockRecords clock Math_random toISOString parseFloat).
Local Abbreviation shape := (mock_shape toISOString parseFloat).

Lemma floor_of_percent (r : Q) :
  (0 <= r)%Q → (r < 1)%Q → (0 ≤ Qfloor (r * 100) ≤ 99)%Z.
Proof.
  intros Hlo Hhi. split.
  - change 0%Z with (Qfloor 0). apply Qfloor_resp_le.
    rewrite <- (Qmult_0_l 100). by apply Qmult_le_compat_r.
  - assert (Qfloor (r * 100) < 100)%Z; [|lia].
    rewrite Zlt_Qlt. eapply Qle_lt_trans; [apply Qfloor_le|].
    change (inject_Z 100) with (1 * 100)%Q. by apply Qmult_lt_compat_r.
Qed.

Lemma mock_value_returns (field : Field) (w : World) :
  ∃ v w', mock field w = (Val v, w').
Proof.
  unfold mock_value.
  destruct (f_type field), (truthy_string (f_default field)); by eexists _, _.
Qed.

Lemma mock_value_shape (field : Field) (w : World) :
  (∀ k, (0 <= Math_random k)%Q ∧ (Math_random k < 1)%Q) →
  ∃ v w', mock field w = (Val v, w') ∧ shape field v.
Proof.
  intros Hrange. unfold mock_value, mock_shape.
  destruct (f_type field), (truthy_string (f_default field));
    eexists _, _; (split; [reflexivity|]); eauto.
  eexists. split; [reflexivity|].
  destruct (Hrange (random_draws w)). by apply floor_of_percent.
Qed.

Lemma getMockData_from_run (P : Field → JSON → Prop) (fs : list Field)
    (data : gmap string JSON) (w : World) :
  (∀ field w, ∃ v w', mock field w = (Val v, w') ∧ P field v) →
  ∃ data' w',
    mock_from fs data w = (Val data', w')
    ∧ dom data' = list_to_set (own_names (f_name <$> fs)) ∪ dom data
    ∧ ∀ k v, data' !! k = Some v →
        data !! k = Some v ∨ ∃ field, field ∈ fs ∧ f_name field = k ∧ P field v.
Proof.
  intros Hmock. revert data w.
  induction fs as [|f fs IH]; intros data w.
  - exists data, w. split; [done|]. split; [|by left].
    unfold own_names. by rewrite fmap_nil, filter_nil, list_to_set_nil, (left_id_L ∅ (∪)).
  - destruct (Hmock f w) as (v & w1 & Hv & HP).
    cbn [getMockData_from]. unfold bind. rewrite Hv.
    destruct (IH (set_prop (f_name f) v data) w1) as (data' & w' & Hrun & Hdom & Hshape).
    exists data', w'. split; [done|]. unfold set_prop in Hdom, Hshape. split.
    + rewrite Hdom, fmap_cons. unfold own_names. case_bool_decide as Hproto.
      * by rewrite filter_cons_False by (by intros H; apply H).
      * rewrite filter_cons_True by done.
        rewrite dom_insert_L, list_to_set_cons.
        by rewrite (assoc_L (∪)), (comm_L (∪) (list_to_set _)).
    + intros k v' Hk. destruct (Hshape k v' Hk) as [Hold|(g & Hg & Hname & HPg)].
      * case_bool_decide as Hproto; [by left|].
        destruct (decide (f_name f = k)) as [<-|Hne].
        -- rewrite lookup_insert_eq in Hold. injection Hold as <-.
           right. exists f. split; [by left|done].
        -- rewrite lookup_insert_ne in Hold by done. by left.
      * right. exists g. split; [by right|done].
Qed.

Lemma getMockData_dom (modelDef : ModelDefinition) (w : World) :
  ∃ data w',
    mock_data modelDef w = (Val data, w')
    ∧ dom data = list_to_set (own_names (f_name <$> fields modelDef)).
Proof.
  destruct (getMockData_from_run (λ _ _, True) (fields modelDef) ∅ w)
    as (data & w' & Hrun & Hdom & _).
  { intros f w0. destruct (mock_value_returns f w0) as (v & w1 & Hv). by exists v, w1. }
  exists data, w'. split; [done|]. by rewrite Hdom, dom_empty_L, (right_id_L ∅ (∪)).
Qed.

(** [getMockData] never rejects, and the properties of the record it
    builds are exactly the names of the fields other than "__proto__"
    (one property for a name that several fields share): a field of the
    name "__proto__" gets no property.  The files are left as they are. *)
Theorem getMockData_keys (modelDef : ModelDefinition) (w : World) :
  ∃ data w',
    mock_data modelDef w = (Val data, w')
    ∧ dom data = list_to_set (own_names (f_name <$> fields modelDef))
    ∧ data !! "__proto__" = None
    ∧ files w' = files w.
Proof.
  destruct (getMockData_dom modelDef w) as (data & w' & Hrun & Hdom).
  exists data, w'. split; [done|]. split; [done|]. split.
  { apply not_elem_of_dom. rewrite Hdom, elem_of_list_to_set.
    unfold own_names. rewrite list_elem_of_filter. by intros [H _]. }
  destruct (keeps_getMockData_from clock Math_random toISOString parseFloat
              (fields modelDef) ∅ w) as [Hfiles _].
  unfold getMockData in Hrun. by rewrite Hrun in Hfiles.
Qed.

(** As long as [Math.random()] is in the interval from 0 (included) to
    1 (excluded), every property of the mock record is the value
    [getMockData] prescribes for a field of that name: a number without
    default is an integer from 0 to 99, a boolean with a default is [true]
    only for the default "true", and so on by type and default. *)
Theorem getMockData_values (modelDef : ModelDefinition) (w : World) :
  (∀ k, (0 <= Math_random k)%Q ∧ (Math_random k < 1)%Q) →
  ∃ data w',
    mock_data modelDef w = (Val data, w')
    ∧ ∀ k v, data !! k = Some v →
        ∃ field, field ∈ fields modelDef ∧ f_name field = k ∧ shape field v.
Proof.
  intros Hrange.
  destruct (getMockData_from_run shape (fields modelDef) ∅ w)
    as (data & w' & Hrun & _ & Hshape).
  { intros f w0. by apply mock_value_shape. }
  exists data, w'. split; [done|]. intros k v Hk.
  by destruct (Hshape k v Hk) as [Hempty|?].
Qed.

Lemma mockRecords_ids (modelDef : ModelDefinition) (i n : nat) (w : World) :
  (∀ field, field ∈ fields modelDef → f_name field ≠ "id") →
  ∃ records w',
    mock_records modelDef i n w = (Val records, w')
    ∧ (λ r, get_prop r "id") <$> records
      = (λ j, Val (Some (JStr ("mock-" +:+ pretty (S j))))) <$> seq i n.
Proof.
  intros Hnoid. revert i w. induction n as [|n IH]; intros i w; simpl.
  - by exists [], w.
  - destruct (getMockData_dom modelDef w) as (data & w1 & Hdata & Hdom).
    unfold bind. rewrite Hdata.
    destruct (IH (S i) w1) as (rest & w' & Hrest & Hids). rewrite Hrest.
    eexists _, _. split; [reflexivity|]. rewrite fmap_cons, Hids. f_equal.
    simpl. rewrite lookup_union, lookup_singleton_eq.
    assert (data !! "id" = None) as ->; [|done].
    apply not_elem_of_dom. rewrite Hdom. intros Hin.
    apply elem_of_list_to_set, list_elem_of_filter in Hin as [_ Hin].
    apply list_elem_of_fmap in Hin as (f & Hname & Hf).
    by destruct (Hnoid f Hf).
Qed.

(** For a role that may read a model none of whose fields is named
    "id": a request with an [id] is answered with one record that bears
    that id and has, beside it, the names of the fields other than
    "__proto__" as its properties, and a request without is answered
    with five records, whose ids are "mock-1" to "mock-5". *)
Theorem get_mock_ids (userRole : string) (req : Request) (w : World)
    (d : ModelDefinition) :
  stored w (rq_modelName req) = Some (Document d) →
  "read" ∈ permissions_of d userRole →
  (∀ field, field ∈ fields d → f_name field ≠ "id") →
  (∀ id, truthy_string (rq_id req) = Some id →
     ∃ record w', get userRole req w = (Val (mkResponse 200 (JObj record)), w')
                  ∧ record !! "id" = Some (JStr id)
                  ∧ dom record
                    = {["id"]} ∪ list_to_set (own_names (f_name <$> fields d)))
  ∧ (truthy_string (rq_id req) = None →
     ∃ records w', get userRole req w = (Val (mkResponse 200 (JArr records)), w')
                   ∧ (λ r, get_prop r "id") <$> records
                     = (λ id, Val (Some (JStr id)))
                         <$> ["mock-1"; "mock-2"; "mock-3"; "mock-4"; "mock-5"]).
Proof.
  intros Hd Hperm Hnoid. apply includes_true in Hperm.
  assert (modelPersistence_loadModel path_join (rq_modelName req) w = (Val (Some d), w))
    as Hload by (by apply loadModel_document).
  split.
  - intros id Hid. destruct (getMockData_dom d w) as (data & w' & Hdata & Hdom).
    exists (data ∪ {["id" := JStr id]}), w'.
    unfold GET_as, try_catch, bind. rewrite Hload, Hperm, Hid. simpl.
    rewrite Hdata. split; [done|]. split.
    + rewrite lookup_union, lookup_singleton_eq.
      assert (data !! "id" = None) as ->; [|done].
      apply not_elem_of_dom. rewrite Hdom. intros Hin.
      apply elem_of_list_to_set, list_elem_of_filter in Hin as [_ Hin].
      apply list_elem_of_fmap in Hin as (f & Hname & Hf).
      by destruct (Hnoid f Hf).
    + rewrite dom_union_L, dom_singleton_L, Hdom. apply (comm_L (∪)).
  - intros Hid. destruct (mockRecords_ids d 0 5 w Hnoid) as (records & w' & Hrun & Hids).
    exists records, w'.
    unfold GET_as, try_catch, bind. rewrite Hload, Hperm, Hid. cbn -[mockRecords].
    rewrite Hrun. split; [done|]. rewrite Hids. reflexivity.
Qed.

End MockFacts.

(** ** The model form: fields and permissions *)

Lemma filter_index_from_spec {A} (i index : nat) (xs : list A) :
  Form.filter_index_from i index xs
  = if bool_decide (i ≤ index)%nat
    then (take (index - i) xs ++ drop (S (index - i)) xs)%list
    else xs.
Proof.
  revert i. induction xs as [|x rest IH]; intros i.
  - simpl. case_bool_decide; [|done]. by rewrite take_nil.
  - cbn [Form.filter_index_from]. rewrite IH.
    repeat case_bool_decide; try lia.
    + replace (index - i)%nat with (S (index - S i)) by lia. reflexivity.
    + f_equal.
    + replace (index - i)%nat with 0%nat by lia. reflexivity.
Qed.

(** [removeField] takes out the field at the index and nothing else when
    the form has more than one field and the index is one of its
    positions; otherwise it leaves the fields as they are.  So it never
    takes the last field away. *)
Theorem removeField_outcome (index : nat) (fields : list Field) :
  ((1 < length fields)%nat → (index < length fields)%nat →
     Form.removeField index fields = (take index fields ++ drop (S index) fields)%list
     ∧ length (Form.removeField index fields) = (length fields - 1)%nat)
  ∧ ((length fields ≤ 1)%nat ∨ (length fields ≤ index)%nat →
     Form.removeField index fields = fields)
  ∧ (fields ≠ [] → Form.removeField index fields ≠ []).
Proof.
  assert (Form.removeField index fields
          = if bool_decide (1 < length fields)%nat
            then (take index fields ++ drop (S index) fields)%list else fields) as E.
  { unfold Form.removeField. case_bool_decide; [|done].
    rewrite filter_index_from_spec, Nat.sub_0_r. by case_bool_decide; [|lia]. }
  split; [|split].
  - intros Hlen Hindex. rewrite E, bool_decide_eq_true_2 by done.
    split; [done|]. rewrite length_app, length_take, length_drop. lia.
  - intros [Hlen|Hindex]; rewrite E; case_bool_decide; try done; try lia.
    rewrite take_ge, drop_ge by lia. by rewrite app_nil_r.
  - intros Hne. rewrite E. case_bool_decide; [|done].
    intros Hnil. apply (f_equal length) in Hnil.
    rewrite length_app, length_take, length_drop in Hnil. simpl in Hnil. lia.
Qed.

(** [addField] appends one blank, optional [string] field; removing the
    field at the last position right after gives the fields back, as
    long as there was a field before. *)
Theorem addField_then_removeField (fields : list Field) :
  fields ≠ [] →
  length (Form.addField fields) = S (length fields)
  ∧ last (Form.addField fields) = Some Form.newField
  ∧ Form.removeField (length fields) (Form.addField fields) = fields.
Proof.
  intros Hne. unfold Form.addField. split; [|split].
  - rewrite length_app. simpl. lia.
  - by rewrite last_snoc.
  - unfold Form.removeField. rewrite length_app. simpl.
    rewrite bool_decide_eq_true_2 by (destruct fields; [done|simpl; lia]).
    rewrite filter_index_from_spec, Nat.sub_0_r. case_bool_decide; [|lia].
    rewrite take_app_length, drop_app_ge by lia.
    replace (S (length fields) - length fields)%nat with 1%nat by lia.
    simpl. by rewrite app_nil_r.
Qed.

Lemma togglePermission_at (role permission : string) (prev : gmap string (list string)) :
  default [] (Form.togglePermission role permission prev !! role)
  = if includes permission (default [] (prev !! role))
    then filter (λ p, p ≠ permission) (default [] (prev !! role))
    else (default [] (prev !! role) ++ [permission])%list.
Proof. unfold Form.togglePermission. by rewrite lookup_insert_eq. Qed.

(** [togglePermission] flips the one permission of the one role: the
    permission is listed after the toggle exactly when it was not listed
    before, the other permissions of the role are listed as before, and
    the other roles keep their lists. *)
Theorem togglePermission_flips (role permission : string)
    (prev : gmap string (list string)) :
  (permission ∈ default [] (Form.togglePermission role permission prev !! role)
   ↔ permission ∉ default [] (prev !! role))
  ∧ (∀ p, p ≠ permission →
       p ∈ default [] (Form.togglePermission role permission prev !! role)
       ↔ p ∈ default [] (prev !! role))
  ∧ (∀ r, r ≠ role → Form.togglePermission role permission prev !! r = prev !! r).
Proof.
  rewrite togglePermission_at. unfold includes. split; [|split].
  - case_bool_decide as Hin.
    + rewrite list_elem_of_filter. split; [by intros [? ?]|done].
    + rewrite elem_of_app, list_elem_of_singleton. split; [done|by right].
  - intros p Hp. case_bool_decide as Hin.
    + rewrite list_elem_of_filter. tauto.
    + rewrite elem_of_app, list_elem_of_singleton. tauto.
  - intros r Hr. unfold Form.togglePermission. by rewrite lookup_insert_ne.
Qed.

Lemma filter_other_than (permission : string) (l : list string) :
  permission ∉ l → filter (λ p, p ≠ permission) l = l.
Proof.
  induction l as [|x l IH]; [done|]. intros Hnot.
  apply not_elem_of_cons in Hnot as [Hx Hl].
  rewrite filter_cons_True by done. by rewrite IH.
Qed.

(** Two toggles in a row do not always give the list back: a permission
    that was not listed is added and taken away again, but one that was
    listed comes back at the end of the list, once, wherever and however
    often it stood before. *)
Theorem togglePermission_twice (role permission : string)
    (prev : gmap string (list string)) :
  default []
    (Form.togglePermission role permission (Form.togglePermission role permission prev)
       !! role)
  = if includes permission (default [] (prev !! role))
    then (filter (λ p, p ≠ permission) (default [] (prev !! role)) ++ [permission])%list
    else default [] (prev !! role).
Proof.
  rewrite togglePermission_at, (togglePermission_at role permission prev).
  unfold includes.
  destruct (decide (permission ∈ default [] (prev !! role))) as [Hin|Hin].
  - rewrite !(bool_decide_eq_true_2 _ Hin).
    by rewrite bool_decide_eq_false_2 by (rewrite list_elem_of_filter; by intros [? ?]).
  - rewrite !(bool_decide_eq_false_2 _ Hin).
    rewrite bool_decide_eq_true_2
      by (rewrite elem_of_app, list_elem_of_singleton; by right).
    rewrite filter_app, filter_other_than by done.
    rewrite filter_cons_False by (by intros H; apply H).
    by rewrite filter_nil, app_nil_r.
Qed.

(** A list of permissions without repetition stays without repetition
    under [togglePermission]. *)
Theorem togglePermission_NoDup (role permission : string)
    (prev : gmap string (list string)) :
  NoDup (default [] (prev !! role)) →
  NoDup (default [] (Form.togglePermission role permission prev !! role)).
Proof.
  intros Hnodup. rewrite togglePermission_at. unfold includes.
  case_bool_decide as Hin.
  - by apply NoDup_filter.
  - apply NoDup_app. split; [done|]. split; [|apply NoDup_singleton].
    intros x Hx ->%list_elem_of_singleton. done.
Qed.

(** ** The route of one model: update and delete *)

Section ModelByIdFacts.

Variable Db : Type.
Variable db_create : CreateData → Async Db JSON.
Variable db_findUnique : string → Async Db (option ModelRow).
Variable db_update : string → UpdateData → Async Db JSON.
Variable db_delete : string → Async Db unit.

Local Abbreviation PUT_of := (PUT_model Db db_findUnique db_update).
Local Abbreviation DELETE_of := (DELETE_model Db db_findUnique db_delete).
Local Abbreviation POST_of := (POST_models Db db_create).
Local Abbreviation answers := (answers_update Db db_update).

(** For an id the table does not have, update and delete answer 404
    "Model not found" and go no further than the lookup: neither
    [update] nor [delete] of the database is called. *)
Theorem model_route_unknown_id (id : string) (db db1 : Db) :
  db_findUnique id db = (Val None, db1) →
  (∀ body, body ≠ JNull →
     PUT_of id (Val body) db = (Val (error_response "Model not found" 404), db1))
  ∧ DELETE_of id db = (Val (error_response "Model not found" 404), db1).
Proof.
  intros Hfind. split.
  - intros body Hbody. unfold PUT_model, try_catch, bind, lift.
    destruct (get_prop_not_null body "name" Hbody) as [v1 ->].
    destruct (get_prop_not_null body "tableName" Hbody) as [v2 ->].
    destruct (get_prop_not_null body "fields" Hbody) as [v3 ->].
    destruct (get_prop_not_null body "ownerField" Hbody) as [v4 ->].
    destruct (get_prop_not_null body "rbac" Hbody) as [v5 ->].
    by rewrite Hfind.
  - unfold DELETE_model, try_catch, bind. by rewrite Hfind.
Qed.

Lemma PUT_model_run (id : string) (db db1 : Db) (row : ModelRow)
    (m : gmap string JSON) :
  db_findUnique id db = (Val (Some row), db1) →
  PUT_of id (Val (JObj m)) db
  = match or_stored (m !! "fields") row "fields",
          or_stored (m !! "ownerField") row "ownerField",
          or_stored (m !! "rbac") row "rbac" with
    | Val fields', Val ownerField', Val rbac' =>
        answers id
          (mkUpdateData
             (if truthy (m !! "name") then default JNull (m !! "name")
              else JStr (row_name row))
             (if truthy (m !! "tableName") then default JNull (m !! "tableName")
              else nullable (row_tableName row))
             (JObj (set_if_defined "rbac" rbac'
                      (set_if_defined "ownerField" ownerField'
                         (set_if_defined "fields" fields' ∅))))) db1
    | _, _, _ => (Val (error_response "Failed to update model" 500), db1)
    end.
Proof.
  intros Hfind. unfold PUT_model, answers_update, try_catch, bind, lift. simpl.
  rewrite Hfind.
  destruct (or_stored (m !! "fields") row "fields") as [f|]; [|done].
  destruct (or_stored (m !! "ownerField") row "ownerField") as [o|]; [|done].
  by destruct (or_stored (m !! "rbac") row "rbac") as [r|].
Qed.

Lemma or_stored_object (v : option JSON) (row : ModelRow) (s : gmap string JSON)
    (k : string) :
  row_definition row = Val (JObj s) →
  or_stored v row k = Val (or_else v (s !! k)).
Proof. intros Hs. unfold or_stored, or_else. rewrite Hs. by destruct (truthy v). Qed.

Lemma definition_lookup (f o r : option JSON) (k : string) :
  set_if_defined "rbac" r (set_if_defined "ownerField" o (set_if_defined "fields" f ∅))
    !! k
  = if bool_decide (k = "rbac") then r
    else if bool_decide (k = "ownerField") then o
    else if bool_decide (k = "fields") then f
    else None.
Proof.
  repeat case_bool_decide; subst;
    destruct f, o, r; simpl;
    rewrite ?lookup_insert_eq, ?lookup_insert_ne, ?lookup_empty by done; done.
Qed.

(** An update of a model whose stored definition is an object hands to
    the database, property by property, the value of the request when
    that value is truthy and the stored one otherwise.  So a request
    cannot clear a property: [null], [false], [0] and the empty string
    all keep what is stored.  Of the stored definition only [fields],
    [ownerField] and [rbac] are carried over. *)
Theorem PUT_model_merges (id : string) (db db1 : Db) (row : ModelRow)
    (m s : gmap string JSON) :
  db_findUnique id db = (Val (Some row), db1) →
  row_definition row = Val (JObj s) →
  ∃ data definition,
    PUT_of id (Val (JObj m)) db = answers id data db1
    ∧ ud_name data = default (JStr (row_name row)) (or_else (m !! "name") None)
    ∧ ud_tableName data
      = default (nullable (row_tableName row)) (or_else (m !! "tableName") None)
    ∧ ud_definition data = JObj definition
    ∧ (∀ k, k ∈ ["fields"; "ownerField"; "rbac"] →
            definition !! k = or_else (m !! k) (s !! k))
    ∧ (∀ k, k ∉ ["fields"; "ownerField"; "rbac"] → definition !! k = None).
Proof.
  intros Hfind Hs. eexists _, _.
  rewrite (PUT_model_run id db db1 row m Hfind), !(or_stored_object _ _ _ _ Hs).
  split; [reflexivity|]. cbn [ud_name ud_tableName ud_definition].
  split; [|split; [|split; [reflexivity|split]]].
  - unfold or_else. destruct (m !! "name") as [v|]; [|done]. by destruct (truthy (Some v)).
  - unfold or_else. destruct (m !! "tableName") as [v|]; [|done].
    by destruct (truthy (Some v)).
  - intros k Hk. rewrite definition_lookup.
    repeat (apply elem_of_cons in Hk as [->|Hk]; [done|]).
    by apply elem_of_nil in Hk.
  - intros k Hk. rewrite definition_lookup.
    rewrite !not_elem_of_cons in Hk. destruct Hk as (H1 & H2 & H3 & _).
    by rewrite !bool_decide_eq_false_2.
Qed.

(** When the stored definition does not parse, an update goes through
    only if the request brings truthy [fields], [ownerField] and [rbac]
    all three, in which case the stored text is never parsed and the new
    definition is made of the three; a request that leaves one of them
    out is answered 500 and the database is not written. *)
Theorem PUT_model_corrupt_stored (id : string) (db db1 : Db) (row : ModelRow)
    (m : gmap string JSON) :
  db_findUnique id db = (Val (Some row), db1) →
  row_definition row = Exn →
  (truthy (m !! "fields") = true → truthy (m !! "ownerField") = true →
   truthy (m !! "rbac") = true →
     ∃ data,
       PUT_of id (Val (JObj m)) db = answers id data db1
       ∧ ud_definition data
         = JObj (set_if_defined "rbac" (m !! "rbac")
                   (set_if_defined "ownerField" (m !! "ownerField")
                      (set_if_defined "fields" (m !! "fields") ∅))))
  ∧ (truthy (m !! "fields") = false ∨ truthy (m !! "ownerField") = false
     ∨ truthy (m !! "rbac") = false →
     PUT_of id (Val (JObj m)) db
     = (Val (error_response "Failed to update model" 500), db1)).
Proof.
  intros Hfind Hs. rewrite (PUT_model_run id db db1 row m Hfind).
  unfold or_stored. rewrite Hs. split.
  - intros -> -> ->. by eexists.
  - intros [->|[->| ->]]; [done| |].
    + by destruct (truthy (m !! "fields")).
    + by destruct (truthy (m !! "fields")), (truthy (m !! "ownerField")).
Qed.

(** The update route accepts what the creation route refuses: a
    submission whose [fields] is the empty array is answered 400 by
    [POST /api/models], and the same submission sent as an update of an
    existing model reaches the database with the empty array as its
    [fields]. *)
Theorem PUT_model_accepts_empty_fields (id : string) (db db1 : Db) (row : ModelRow)
    (m s : gmap string JSON) :
  db_findUnique id db = (Val (Some row), db1) →
  row_definition row = Val (JObj s) →
  m !! "fields" = Some (JArr []) →
  POST_of (Val (JObj m)) db = (Val (error_response "Invalid model definition" 400), db)
  ∧ ∃ data definition,
      PUT_of id (Val (JObj m)) db = answers id data db1
      ∧ ud_definition data = JObj definition
      ∧ definition !! "fields" = Some (JArr []).
Proof.
  intros Hfind Hs Hfields. split.
  - unfold POST_models, try_catch, bind, lift. simpl. rewrite Hfields. simpl.
    by rewrite orb_true_r.
  - eexists _, _.
    rewrite (PUT_model_run id db db1 row m Hfind), !(or_stored_object _ _ _ _ Hs).
    split; [reflexivity|]. split; [reflexivity|].
    rewrite definition_lookup. simpl. by rewrite Hfields.
Qed.

(** A model that is found is deleted and the answer is 200, unless the
    database rejects the deletion, which gives 500. *)
Theorem DELETE_model_found (id : string) (db db1 : Db) (row : ModelRow) :
  db_findUnique id db = (Val (Some row), db1) →
  (∀ db2, db_delete id db1 = (Val (), db2) →
     DELETE_of id db
     = (Val (mkResponse 200 (JObj {["message" := JStr "Model deleted successfully"]})),
        db2))
  ∧ (∀ db2, db_delete id db1 = (Exn, db2) →
       DELETE_of id db = (Val (error_response "Failed to delete model" 500), db2)).
Proof.
  intros Hfind.
  split; intros db2 Hdelete; unfold DELETE_model, try_catch, bind;
    by rewrite Hfind, Hdelete.
Qed.

End ModelByIdFacts.

(** ** The further properties at concrete inputs *)

Module MoreWitnesses.
Import Scenario Examples.

Abbreviation load_on := (loadModel Node.path_join "./models").
Abbreviation save_on := (saveModel Node.path_join Node.clock "./models").
Abbreviation update_on := (updateModel Node.path_join Node.clock "./models").
Abbreviation path_on := (getModelFilePath Node.path_join "./models").
Abbreviation GET_on :=
  (GET_as Node.path_join Node.clock Node.Math_random Node.toISOString (λ _, JNull)).
Abbreviation handler_on :=
  (handler_as Node.path_join Node.clock Node.Math_random Node.toISOString (λ _, JNull)).
Abbreviation PUT_row := (PUT_model Table.Db Table.db_findUnique Table.db_update).
Abbreviation DELETE_row := (DELETE_model Table.Db Table.db_findUnique Table.db_delete).
Abbreviation answers_row := (answers_update Table.Db Table.db_update).

(** The three files of the directory are read; the one that does not
    parse is passed over. *)
Lemma loadAllModels_outcome_witness :
  loadAllModels Node.path_join Node.readdir "./models" w_models
  = (Val match Node.readdir "./models" w_models with
         | Val entries =>
             omap (entry_model Node.path_join "./models" w_models)
                  (filter (λ file, endsWith file ".json" = true) entries)
         | Exn => []
         end, w_models).
Proof.
  apply (loadAllModels_outcome Node.path_join Node.readdir "./models" w_models).
  reflexivity.
Defined.

(** [Flawed] is saved beside [Product]. *)
Lemma saveModel_leaves_other_names_witness :
  fst (load_on "Product" (snd (save_on Flawed w_models))) = fst (load_on "Product" w_models).
Proof.
  apply (saveModel_leaves_other_names Node.path_join Node.clock "./models" Flawed w_models
           "Product").
  decide_by_computation.
Defined.

(** The file of "Broken" is removed; there is none of "Absent". *)
Lemma deleteModel_outcome_witness :
  (∃ w', deleteModel Node.path_join "./models" "Broken" w_models = (Val true, w')
         ∧ load_on "Broken" w' = (Val None, w'))
  ∧ deleteModel Node.path_join "./models" "Absent" w_models = (Val false, w_models).
Proof.
  destruct (deleteModel_outcome Node.path_join "./models" w_models "Broken") as [Hsome _].
  destruct (deleteModel_outcome Node.path_join "./models" w_models "Absent") as [_ Hnone].
  split.
  - destruct Hsome as (w' & Hrun & Hload & _); [vm_compute; eexists; reflexivity|].
    exists w'. split; assumption.
  - apply Hnone. vm_compute. reflexivity.
Defined.

Lemma modelExists_and_loadModel_witness :
  modelExists Node.path_join "./models" "Broken" w_models = (Val true, w_models)
  ∧ load_on "Broken" w_models = (Val None, w_models).
Proof.
  destruct (modelExists_and_loadModel Node.path_join "./models" w_models "Broken")
    as (_ & Hraw & _).
  apply (Hraw "{ name: "). vm_compute. reflexivity.
Defined.



(** [Ticket] has the owner field "ownerId" and a field of that name. *)
Lemma schema_owner_column_twice_witness :
  ∃ before between rest after,
    generatePrismaSchema Ticket
    = before +:+ ("  " +:+ "ownerId" +:+ " String" +:+ nl)
        +:+ between +:+ ("  " +:+ "ownerId" +:+ "  " +:+ rest +:+ nl) +:+ after.
Proof.
  apply (schema_owner_column_twice Ticket "ownerId"
           (mkField "ownerId" TString None None None None)).
  - vm_compute. reflexivity.
  - simpl. right. left.
  - reflexivity.
Defined.

(** A Viewer asks for the records of "Broken", whose file does not parse. *)
Lemma unknown_model_is_404_witness :
  handler_on "Viewer" "u1" Read (mkRequest "Broken" None (Val JNull)) w_models
  = (Val (error_response "Model not found" 404), w_models).
Proof.
  apply (unknown_model_is_404 Node.path_join Node.clock Node.Math_random Node.toISOString
           (λ _, JNull) "Viewer" "u1" Read (mkRequest "Broken" None (Val JNull)) w_models).
  - intros d. vm_compute. discriminate.
  - exact I.
Defined.

(** A body that is not JSON, and no record id, for a model that does
    not exist. *)
Lemma request_shape_comes_first_witness :
  POST_on "Viewer" (mkRequest "Absent" None Exn) w_models
  = (Val (error_response "Failed to create record" 500), w_models)
  ∧ DELETE_on "Viewer" (mkRequest "Absent" None Exn) w_models
    = (Val (error_response "Record ID is required" 400), w_models).
Proof.
  destruct (request_shape_comes_first Node.path_join Node.clock Node.toISOString
              "Viewer" "u1" (mkRequest "Absent" None Exn) w_models) as [Hbody Hid].
  split.
  - apply Hbody. reflexivity.
  - apply Hid. reflexivity.
Defined.

(** [{ name: "", price: 10 }] for [Product]. *)
Lemma falsy_counts_as_missing_witness :
  ∃ g, g ∈ fields Product ∧ f_required g = Some true
       ∧ POST_on "Admin"
           (mkRequest "Product" None
              (Val (JObj (<["name" := JStr ""]> {["price" := JNum 10 0]})))) w_models
         = (Val (required_message g), w_models).
Proof.
  apply (falsy_counts_as_missing Node.path_join Node.clock Node.toISOString "Admin"
           (mkRequest "Product" None
              (Val (JObj (<["name" := JStr ""]> {["price" := JNum 10 0]})))) w_models
           Product (<["name" := JStr ""]> {["price" := JNum 10 0]})
           (mkField "name" TString (Some true) None None None) (JStr ""));
    try (vm_compute; reflexivity).
  - decide_by_computation.
  - simpl. left.
  - right. right. left. reflexivity.
Defined.

Lemma created_record_is_payload_witness :
  ∃ record,
    POST_on "Admin" (mkRequest "Product" None (Val laptop_payload)) w_models
    = (Val (mkResponse 201 (JObj record)), tick (tick (tick w_models)))
    ∧ record !! "price" = spread laptop_payload !! "price"
    ∧ record !! "id" = Some (JStr ("mock-" +:+ pretty Node.t0)).
Proof.
  destruct (created_record_is_payload Node.path_join Node.clock Node.toISOString "Admin"
              (mkRequest "Product" None (Val laptop_payload)) w_models Product
              laptop_payload)
    as (record & Hrun & Hother & Hid & _).
  - vm_compute. reflexivity.
  - decide_by_computation.
  - reflexivity.
  - constructor; [right; eexists; split; reflexivity|].
    constructor; [right; eexists; split; reflexivity|].
    constructor; [left; reflexivity|]. constructor.
  - exists record. split; [exact Hrun|]. split; [|exact Hid].
    apply Hother; discriminate.
Defined.

(** A payload that names another record than the request does. *)
Lemma updated_record_is_payload_witness :
  ∃ record,
    JObj record = updatedRecord Node.clock Node.toISOString w_models "p-1"
                    (JObj {["id" := JStr "p-2"]})
    ∧ record !! "id" = Some (JStr "p-2").
Proof.
  destruct (updated_record_is_payload Node.path_join Node.clock Node.toISOString
              "Admin" "user-1"
              (mkRequest "Product" (Some "p-1") (Val (JObj {["id" := JStr "p-2"]})))
              w_models Product "p-1" (JObj {["id" := JStr "p-2"]})
              (mkResponse 200 (updatedRecord Node.clock Node.toISOString w_models "p-1"
                                 (JObj {["id" := JStr "p-2"]})))
              (tick w_models))
    as (record & Hpayload & _ & _ & Hid & _).
  - vm_compute. reflexivity.
  - decide_by_computation.
  - reflexivity.
  - reflexivity.
  - vm_compute. reflexivity.
  - reflexivity.
  - exists record. split; [symmetry; exact Hpayload|exact Hid].
Defined.

(** [Product] has no owner field. *)
Lemma no_owner_field_no_ownership_witness :
  DELETE_on "Admin" (mkRequest "Product" (Some "p-1") (Val JNull)) w_models
  = (Val (mkResponse 200 (JObj {["message" := JStr "Record deleted successfully"]})),
     w_models).
Proof.
  destruct (no_owner_field_no_ownership Node.path_join Node.clock Node.toISOString
              "Admin" "user-1" (mkRequest "Product" (Some "p-1") (Val JNull)) w_models
              Product "p-1") as [_ Hdelete].
  - vm_compute. reflexivity.
  - left. reflexivity.
  - reflexivity.
  - apply Hdelete. decide_by_computation.
Defined.

Lemma getMockData_values_witness :
  ∃ data w',
    getMockData Node.clock Node.Math_random Node.toISOString (λ _, JNull) Product w_models
    = (Val data, w')
    ∧ ∀ k v, data !! k = Some v →
        ∃ field, field ∈ fields Product ∧ f_name field = k
                 ∧ mock_shape Node.toISOString (λ _, JNull) field v.
Proof.
  apply (getMockData_values Node.clock Node.Math_random Node.toISOString (λ _, JNull)
           Product w_models).
  intros k. split; vm_compute; [discriminate|reflexivity].
Defined.

Lemma get_mock_ids_witness :
  ∃ records w',
    GET_on "Viewer" (mkRequest "Product" None (Val JNull)) w_models
    = (Val (mkResponse 200 (JArr records)), w')
    ∧ (λ r, get_prop r "id") <$> records
      = (λ id, Val (Some (JStr id)))
          <$> ["mock-1"; "mock-2"; "mock-3"; "mock-4"; "mock-5"].
Proof.
  destruct (get_mock_ids Node.path_join Node.clock Node.Math_random Node.toISOString
              (λ _, JNull) "Viewer" (mkRequest "Product" None (Val JNull)) w_models Product)
    as [_ Hall].
  - vm_compute. reflexivity.
  - decide_by_computation.
  - intros field Hin.
    repeat (apply elem_of_cons in Hin as [->|Hin]; [discriminate|]).
    by apply elem_of_nil in Hin.
  - apply Hall. reflexivity.
Defined.

(** The second of the three fields of [Product] is removed. *)
Lemma removeField_outcome_witness :
  Form.removeField 1 product_fields
  = (take 1 product_fields ++ drop 2 product_fields)%list
  ∧ length (Form.removeField 1 product_fields) = (length product_fields - 1)%nat.
Proof.
  destruct (removeField_outcome 1 product_fields) as [Hremove _].
  apply Hremove; simpl; lia.
Defined.

Lemma addField_then_removeField_witness :
  length (Form.addField product_fields) = S (length product_fields)
  ∧ last (Form.addField product_fields) = Some Form.newField
  ∧ Form.removeField (length product_fields) (Form.addField product_fields)
    = product_fields.
Proof. apply (addField_then_removeField product_fields). discriminate. Defined.

(** Toggling "read" for Viewer leaves "create" not listed. *)
Lemma togglePermission_flips_witness :
  "create" ∈ default [] (Form.togglePermission "Viewer" "read" product_rbac !! "Viewer")
  ↔ "create" ∈ default [] (product_rbac !! "Viewer").
Proof.
  destruct (togglePermission_flips "Viewer" "read" product_rbac) as (_ & Hother & _).
  apply Hother. discriminate.
Defined.

Lemma togglePermission_NoDup_witness :
  NoDup (default [] (Form.togglePermission "Admin" "read" product_rbac !! "Admin")).
Proof.
  apply (togglePermission_NoDup "Admin" "read" product_rbac). decide_by_computation.
Defined.

(** No row has the id "m9". *)
Lemma model_route_unknown_id_witness :
  PUT_row "m9" (Val (JObj Table.whole_body)) Table.rows
  = (Val (error_response "Model not found" 404), Table.rows)
  ∧ DELETE_row "m9" Table.rows = (Val (error_response "Model not found" 404), Table.rows).
Proof.
  destruct (model_route_unknown_id Table.Db Table.db_findUnique Table.db_update
              Table.db_delete "m9" Table.rows Table.rows) as [Hput Hdelete].
  - vm_compute. reflexivity.
  - split; [apply Hput; discriminate|exact Hdelete].
Defined.

(** An update meant to empty the owner field of "m1" keeps it, takes the
    empty list of fields, and drops the stored "version". *)
Lemma PUT_model_merges_witness :
  ∃ data definition,
    PUT_row "m1" (Val (JObj Table.emptying_body)) Table.rows
    = answers_row "m1" data Table.rows
    ∧ ud_name data = JStr "Note"
    ∧ ud_definition data = JObj definition
    ∧ definition !! "ownerField" = Some (JStr "ownerId")
    ∧ definition !! "fields" = Some (JArr [])
    ∧ definition !! "version" = None.
Proof.
  destruct (PUT_model_merges Table.Db Table.db_findUnique Table.db_update "m1"
              Table.rows Table.rows Table.note_row Table.emptying_body
              Table.note_definition)
    as (data & definition & Hrun & Hname & _ & Hdefinition & Hthree & Hother).
  - vm_compute. reflexivity.
  - reflexivity.
  - exists data, definition. split; [exact Hrun|]. split; [exact Hname|].
    split; [exact Hdefinition|]. split; [|split].
    + rewrite (Hthree "ownerField") by decide_by_computation. reflexivity.
    + rewrite (Hthree "fields") by decide_by_computation. reflexivity.
    + apply Hother. decide_by_computation.
Defined.

(** The row "m2" is repaired by a whole definition, and by nothing less. *)
Lemma PUT_model_corrupt_stored_witness :
  (∃ data, PUT_row "m2" (Val (JObj Table.whole_body)) Table.rows
           = answers_row "m2" data Table.rows)
  ∧ PUT_row "m2" (Val (JObj Table.emptying_body)) Table.rows
    = (Val (error_response "Failed to update model" 500), Table.rows).
Proof.
  destruct (PUT_model_corrupt_stored Table.Db Table.db_findUnique Table.db_update "m2"
              Table.rows Table.rows Table.torn_row Table.whole_body) as [Hwhole _];
    try (vm_compute; reflexivity).
  destruct (PUT_model_corrupt_stored Table.Db Table.db_findUnique Table.db_update "m2"
              Table.rows Table.rows Table.torn_row Table.emptying_body) as [_ Hpart];
    try (vm_compute; reflexivity).
  split.
  - destruct Hwhole as (data & Hrun & _); try (vm_compute; reflexivity).
    exists data. exact Hrun.
  - apply Hpart. right. left. vm_compute. reflexivity.
Defined.

Lemma PUT_model_accepts_empty_fields_witness :
  POST_models Table.Db Table.db_create (Val (JObj Table.emptying_body)) Table.rows
  = (Val (error_response "Invalid model definition" 400), Table.rows)
  ∧ ∃ data definition,
      PUT_row "m1" (Val (JObj Table.emptying_body)) Table.rows
      = answers_row "m1" data Table.rows
      ∧ ud_definition data = JObj definition
      ∧ definition !! "fields" = Some (JArr []).
Proof.
  apply (PUT_model_accepts_empty_fields Table.Db Table.db_create Table.db_findUnique
           Table.db_update "m1" Table.rows Table.rows Table.note_row Table.emptying_body
           Table.note_definition); vm_compute; reflexivity.
Defined.

Lemma DELETE_model_found_witness :
  DELETE_row "m1" Table.rows
  = (Val (mkResponse 200 (JObj {["message" := JStr "Model deleted successfully"]})),
     delete "m1" Table.rows).
Proof.
  destruct (DELETE_model_found Table.Db Table.db_findUnique Table.db_delete "m1"
              Table.rows Table.rows Table.note_row) as [Hgone _].
  - vm_compute. reflexivity.
  - apply Hgone. vm_compute. reflexivity.
Defined.

End MoreWitnesses.
